(** * Job application tracker: record store, research cache and reconciler

    A shallow embedding of [app/services/data_service.py]
    ([JobApplicationTracker] and [generate_research_for_all_companies]).

    - Python dictionaries are finite maps ([gmap]) from keys to Python
      values; the rows [csv.DictReader] yields may carry the key [None]
      (its [restkey]) and the value [None] (its [restval]).
    - The CSV file is kept as the table the [csv] module reads and writes: a
      list of rows, each a list of cells, the first row being the header;
      and, for a file whose last line has no line break, the bytes of that
      line, which a row written in mode ['a'] continues.
    - Effects (the CSV file, the research directory, calls to the language
      model) are threaded through a state-and-exception monad [M]; a
      [try]/[except] block is [try_except].
    - [str.lower], [str.strip], the iteration order of a [set] and the
      language model are interfaces; every theorem holds for each of their
      implementations. *)

From Stdlib Require Import Ascii String.
From stdpp Require Import gmap strings list fin_maps.

Open Scope string_scope.
Open Scope list_scope.

(** ** Python values and exceptions *)

Inductive pyval :=
  | PNone
  | PStr (s : string)
  | PList (l : list string).

#[global] Instance pyval_eq_dec : EqDecision pyval.
Proof. solve_decision. Defined.

(** A Python dict with string keys, or the key [None]. *)
Abbreviation dict := (gmap (option string) pyval).

Inductive exn := KeyError | AttributeError | ValueError | OSError.

Inductive result (A : Type) :=
  | Ok (a : A)
  | Raise (e : exn).
Arguments Ok {A} a.
Arguments Raise {A} e.

#[global] Instance result_ret : MRet result := fun A a => Ok a.
#[global] Instance result_bind : MBind result := fun A B f m =>
  match m with
  | Ok a => f a
  | Raise e => Raise e
  end.

(** ** Library interfaces *)

(** [str.lower], [str.strip], [str] of a list, and the order in which a
    [set] built from a list is iterated. *)
Class Python := {
  lower : string -> string;
  strip : string -> string;
  str_of_list : list string -> string;
  set_iter : list pyval -> list pyval;
  set_iter_NoDup : forall l, NoDup (set_iter l);
  set_iter_elem : forall l x, x ∈ set_iter l <-> x ∈ l
}.

(** [ai_service.generate_company_research]: the text the language model
    returns for a company, [None] when the call fails.  The answer may
    depend on the calls made before. *)
Class Collaborator := {
  generate_company_research : list string -> string -> option string
}.

(** ** The world: files and the call log *)

Record world := {
  csv : option (list (list string));
    (* CSV_FILE: the rows csv.reader yields, [None] when the file does not exist *)
  csv_tail : string;
    (* CSV_FILE: its bytes after the last complete record, from which the
       last row is read; empty when the file ends with a line break *)
  csv_can_read : bool;    (* opening CSV_FILE for reading succeeds *)
  csv_can_write : bool;   (* opening CSV_FILE for writing or appending succeeds *)
  research : gmap string string;
    (* RESEARCH_DIR: file name to content *)
  unreadable : gset string;  (* research files that cannot be opened for reading *)
  unwritable : gset string;  (* research files that cannot be opened for writing *)
  lookups : list string;  (* research files tested with os.path.exists, oldest first *)
  gen_log : list string;  (* companies passed to the language model, oldest first *)
  now : string            (* datetime.now().strftime('%Y-%m-%d %H:%M:%S') *)
}.

(** The file replaced by the table [t] followed by the bytes [tail] of a
    record without its line break. *)
Definition set_file (t : option (list (list string))) (tail : string) (w : world)
  : world :=
  {| csv := t; csv_tail := tail;
     csv_can_read := csv_can_read w; csv_can_write := csv_can_write w;
     research := research w; unreadable := unreadable w;
     unwritable := unwritable w; lookups := lookups w;
     gen_log := gen_log w; now := now w |}.

(** The file as the csv writer leaves it: every record complete. *)
Definition set_csv (t : option (list (list string))) (w : world) : world :=
  set_file t "" w.

Definition set_research (r : gmap string string) (w : world) : world :=
  {| csv := csv w; csv_tail := csv_tail w;
     csv_can_read := csv_can_read w; csv_can_write := csv_can_write w;
     research := r; unreadable := unreadable w;
     unwritable := unwritable w; lookups := lookups w;
     gen_log := gen_log w; now := now w |}.

Definition set_lookups (l : list string) (w : world) : world :=
  {| csv := csv w; csv_tail := csv_tail w;
     csv_can_read := csv_can_read w; csv_can_write := csv_can_write w;
     research := research w; unreadable := unreadable w;
     unwritable := unwritable w; lookups := l;
     gen_log := gen_log w; now := now w |}.

Definition set_gen_log (l : list string) (w : world) : world :=
  {| csv := csv w; csv_tail := csv_tail w;
     csv_can_read := csv_can_read w; csv_can_write := csv_can_write w;
     research := research w; unreadable := unreadable w;
     unwritable := unwritable w; lookups := lookups w;
     gen_log := l; now := now w |}.

(** The rows held by the store file; none when the file is absent. *)
Definition store_rows (w : world) : list (list string) := default [] (csv w).

(** ** The state-and-exception monad *)

Definition M (A : Type) : Type := world -> result A * world.

#[global] Instance M_ret : MRet M := fun A a w => (Ok a, w).
#[global] Instance M_bind : MBind M := fun A B f m w =>
  match m w with
  | (Ok a, w') => f a w'
  | (Raise e, w') => (Raise e, w')
  end.

Definition lift {A} (r : result A) : M A := fun w => (r, w).

(** [try: m except Exception: h]; what [m] did before raising stays done. *)
Definition try_except {A} (m : M A) (h : exn -> M A) : M A := fun w =>
  match m w with
  | (Ok a, w') => (Ok a, w')
  | (Raise e, w') => h e w'
  end.

(** ** Python expressions *)

(** [d[k]] *)
Definition getitem (d : dict) (k : string) : result pyval :=
  match d !! Some k with
  | Some v => Ok v
  | None => Raise KeyError
  end.

(** [d.get(k)] *)
Definition dict_get (d : dict) (k : string) : pyval := default PNone (d !! Some k).

(** [k in d] *)
Definition contains (d : dict) (k : string) : bool := bool_decide (is_Some (d !! Some k)).

(** [v.lower()] and [v.strip()]: only strings have these methods. *)
Definition py_lower `{Python} (v : pyval) : result string :=
  match v with
  | PStr s => Ok (lower s)
  | _ => Raise AttributeError
  end.

Definition py_strip `{Python} (v : pyval) : result string :=
  match v with
  | PStr s => Ok (strip s)
  | _ => Raise AttributeError
  end.

(** Truth value of [v] in a condition. *)
Definition truthy (v : pyval) : bool :=
  match v with
  | PNone => false
  | PStr s => negb (bool_decide (s = ""))
  | PList l => negb (bool_decide (l = []))
  end.

(** [not v or v.strip() == ""] *)
Definition is_blank `{Python} (v : pyval) : result bool :=
  if negb (truthy v) then Ok true
  else s ← py_strip v; Ok (bool_decide (s = "")).

(** ** Text files and file names *)

Definition LF : ascii := "010"%char.
Definition CR : ascii := "013"%char.
Definition nl : string := String LF EmptyString.

(** [f.readlines()] on a file opened in text mode: a line ends after a
    line feed, a carriage return or the pair of them, and each is read
    as a line feed. *)
Fixpoint readlines_from (after_cr : bool) (cur s : string) : list string :=
  match s with
  | EmptyString => if bool_decide (cur = "") then [] else [cur]
  | String c rest =>
      if bool_decide (c = LF) then
        if after_cr then readlines_from false cur rest
        else (cur +:+ nl) :: readlines_from false "" rest
      else if bool_decide (c = CR) then
        (cur +:+ nl) :: readlines_from true "" rest
      else readlines_from false (cur +:+ String c "") rest
  end.

Definition readlines (s : string) : list string := readlines_from false "" s.

(** [s.replace(old, new)] for single characters. *)
Fixpoint replace (old new : ascii) (s : string) : string :=
  match s with
  | EmptyString => EmptyString
  | String c rest =>
      String (if bool_decide (c = old) then new else c) (replace old new rest)
  end.

(** The file of a company inside RESEARCH_DIR. *)
Definition research_file (company : string) : string :=
  replace "092"%char "_"%char (replace "/"%char "_"%char company) +:+ ".txt".

(** What is written to a research file. *)
Definition note_text (company stamp body : string) : string :=
  "Company Research for " +:+ company +:+ nl +:+
  "Date Generated: " +:+ stamp +:+ nl +:+ nl +:+ body.

(** ** The csv module *)

Definition fieldnames : list string :=
  ["title"; "company"; "status"; "date"; "research"].

(** One row of [csv.DictReader]: cells are paired with the header; cells
    beyond the header go under the key [None], header names beyond the
    cells get the value [None]. *)
Definition read_row (fnames row : list string) : dict :=
  let d := foldl (fun (d : dict) p => <[Some p.1 := PStr p.2]> d) ∅ (zip fnames row) in
  if decide (length fnames < length row) then
    <[None := PList (drop (length fnames) row)]> d
  else
    foldl (fun (d : dict) key => <[Some key := PNone]> d) d (drop (length row) fnames).

(** [list(csv.DictReader(f))]: the first row is the header, empty rows
    are skipped. *)
Definition DictReader (table : list (list string)) : list dict :=
  match table with
  | [] => []
  | fnames :: rows => read_row fnames <$> filter (fun r => r ≠ []) rows
  end.

Definition field_keys : gset (option string) := list_to_set (Some <$> fieldnames).

(** How the csv writer renders a cell. *)
Definition cell `{Python} (v : pyval) : string :=
  match v with
  | PNone => ""
  | PStr s => s
  | PList l => str_of_list l
  end.

(** [DictWriter(f, fieldnames)._dict_to_list]: a key outside the field
    names is a [ValueError]; a missing field is written empty. *)
Definition dict_to_list `{Python} (rowdict : dict) : result (list string) :=
  if bool_decide (dom rowdict ⊆ field_keys) then
    Ok ((fun key => cell (default (PStr "") (rowdict !! Some key))) <$> fieldnames)
  else Raise ValueError.

(** *** The bytes of a csv file

    The excel dialect, which the reader and the writers of the tracker
    use: fields are separated by commas; a field with a comma, a quote
    character or a line break is written between quote characters, its
    quote characters doubled; a record ends with carriage return and line
    feed. *)

Definition COMMA : ascii := ","%char.
Definition QUOTE : ascii := "034"%char.

Definition needs_quotes (field : string) : bool :=
  existsb (fun c => bool_decide (c ∈ [COMMA; QUOTE; CR; LF]))
          (list_ascii_of_string field).

Fixpoint double_quotes (field : string) : string :=
  match field with
  | EmptyString => EmptyString
  | String c rest =>
      if bool_decide (c = QUOTE) then String QUOTE (String QUOTE (double_quotes rest))
      else String c (double_quotes rest)
  end.

Definition csv_field (field : string) : string :=
  if needs_quotes field then String QUOTE (double_quotes field +:+ String QUOTE "")
  else field.

(** The line [csv.writer.writerow] writes; a record of one empty field is
    written as two quote characters. *)
Definition csv_line (row : list string) : string :=
  (if bool_decide (row = [""]) then String QUOTE (String QUOTE "")
   else String.concat "," (csv_field <$> row))
  +:+ String CR (String LF "").

(** The states of the reader between two characters. *)
Inductive parser_state :=
  | START_RECORD
  | START_FIELD
  | IN_FIELD
  | IN_QUOTED_FIELD
  | QUOTE_IN_QUOTED_FIELD.

#[global] Instance parser_state_eq_dec : EqDecision parser_state.
Proof. solve_decision. Defined.

(** [csv.reader] over the bytes of a file opened with [newline='']: the
    rows it yields, and the bytes of the last record when the file ends
    before that record does (the reader yields it all the same).
    [after_cr] is set after a carriage return that ended a record; [field]
    and [fields] hold what is read of the record, [raw] its bytes. *)
Fixpoint csv_scan (state : parser_state) (after_cr : bool) (field : string)
    (fields : list string) (raw bytes : string) : list (list string) * string :=
  match bytes with
  | EmptyString =>
      if bool_decide (state = START_RECORD) then ([], "")
      else ([fields ++ [field]], raw)
  | String c rest =>
      let raw' := raw +:+ String c "" in
      if bool_decide (c = CR \/ c = LF) && negb (bool_decide (state = IN_QUOTED_FIELD))
      then
        if bool_decide (state = START_RECORD) && after_cr && bool_decide (c = LF)
        then csv_scan START_RECORD false "" [] "" rest
        else
          let row := if bool_decide (state = START_RECORD) then []
                     else fields ++ [field] in
          let '(rows, tail) :=
            csv_scan START_RECORD (bool_decide (c = CR)) "" [] "" rest in
          (row :: rows, tail)
      else
        match state with
        | START_RECORD | START_FIELD =>
            if bool_decide (c = QUOTE)
            then csv_scan IN_QUOTED_FIELD false "" fields raw' rest
            else if bool_decide (c = COMMA)
            then csv_scan START_FIELD false "" (fields ++ [""]) raw' rest
            else csv_scan IN_FIELD false (String c "") fields raw' rest
        | IN_FIELD =>
            if bool_decide (c = COMMA)
            then csv_scan START_FIELD false "" (fields ++ [field]) raw' rest
            else csv_scan IN_FIELD false (field +:+ String c "") fields raw' rest
        | IN_QUOTED_FIELD =>
            if bool_decide (c = QUOTE)
            then csv_scan QUOTE_IN_QUOTED_FIELD false field fields raw' rest
            else csv_scan IN_QUOTED_FIELD false (field +:+ String c "") fields raw' rest
        | QUOTE_IN_QUOTED_FIELD =>
            if bool_decide (c = QUOTE)
            then csv_scan IN_QUOTED_FIELD false (field +:+ String c "") fields raw' rest
            else if bool_decide (c = COMMA)
            then csv_scan START_FIELD false "" (fields ++ [field]) raw' rest
            else csv_scan IN_FIELD false (field +:+ String c "") fields raw' rest
        end
  end.

Definition csv_reader (bytes : string) : list (list string) * string :=
  csv_scan START_RECORD false "" [] "" bytes.

(** A file of the rows [rows], the last read from the bytes [tail], after
    the line of [row] is written at its end.  When the file ended with a
    line break the row is one more row; otherwise its line continues the
    last record. *)
Definition appended (rows : list (list string)) (tail : string) (row : list string)
  : list (list string) * string :=
  match tail with
  | EmptyString => (rows ++ [row], "")
  | String _ _ =>
      let '(read, tail') := csv_reader (tail +:+ csv_line row) in
      (removelast rows ++ read, tail')
  end.

(** ** File operations *)

Definition open_csv_r : M (list (list string)) := fun w =>
  match csv w with
  | Some table => if csv_can_read w then (Ok table, w) else (Raise OSError, w)
  | None => (Raise OSError, w)
  end.

(** Mode ['w'] truncates, mode ['a'] keeps the file as it is; both create
    it. *)
Definition open_csv_w : M unit := fun w =>
  if csv_can_write w then (Ok tt, set_csv (Some []) w) else (Raise OSError, w).

Definition open_csv_a : M unit := fun w =>
  if csv_can_write w then (Ok tt, set_file (Some (store_rows w)) (csv_tail w) w)
  else (Raise OSError, w).

(** The writer adds the line of the row at the end of the file. *)
Definition csv_writerow (row : list string) : M unit := fun w =>
  let '(rows, tail) := appended (store_rows w) (csv_tail w) row in
  (Ok tt, set_file (Some rows) tail w).

Definition writerow `{Python} (rowdict : dict) : M unit :=
  row ← lift (dict_to_list rowdict); csv_writerow row.

Definition writeheader : M unit := csv_writerow fieldnames.

(** [os.path.exists(file)] for a research file, recorded in [lookups]. *)
Definition path_exists (file : string) : M bool := fun w =>
  (Ok (bool_decide (is_Some (research w !! file))),
   set_lookups (lookups w ++ [file]) w).

Definition read_note (file : string) : M (list string) := fun w =>
  match research w !! file with
  | Some text =>
      if bool_decide (file ∈ unreadable w) then (Raise OSError, w)
      else (Ok (readlines text), w)
  | None => (Raise OSError, w)
  end.

Definition write_note (file text : string) : M unit := fun w =>
  if bool_decide (file ∈ unwritable w) then (Raise OSError, w)
  else (Ok tt, set_research (<[file := text]> (research w)) w).

Definition get_now : M string := fun w => (Ok (now w), w).

(** A call to the language model, recorded in [gen_log]. *)
Definition call_model `{Collaborator} (company : string) : M (option string) := fun w =>
  (Ok (generate_company_research (gen_log w) company),
   set_gen_log (gen_log w ++ [company]) w).

(** ** JobApplicationTracker *)

Section Tracker.
Context `{Python} `{Collaborator}.

Definition csv_exists : M bool := fun w =>
  (Ok (bool_decide (is_Some (csv w))), w).

(** Creates the CSV file with its header when it does not exist. *)
Definition _ensure_files_exist : M unit :=
  ex ← csv_exists;
  if (ex : bool) then mret tt else (open_csv_w;; writeheader).

(** The constructor: [JobApplicationTracker()]. *)
Definition JobApplicationTracker : M unit := _ensure_files_exist.

Definition get_all_applications : M (list dict) :=
  try_except
    (table ← open_csv_r; mret (DictReader table))
    (fun _ => mret []).

(** The loop of [_is_duplicate]: title and company compared without case. *)
Fixpoint find_duplicate (data : dict) (existing : list dict) : result bool :=
  match existing with
  | [] => Ok false
  | app :: rest =>
      t1 ← getitem app "title" ≫= py_lower;
      t2 ← getitem data "title" ≫= py_lower;
      same ← (if bool_decide (t1 = t2) then
                c1 ← getitem app "company" ≫= py_lower;
                c2 ← getitem data "company" ≫= py_lower;
                Ok (bool_decide (c1 = c2))
              else Ok false);
      if (same : bool) then Ok true else find_duplicate data rest
  end.

(** The body of the [try] block of [_is_duplicate]. *)
Definition _is_duplicate_body (data : dict) : M bool :=
  existing_applications ← get_all_applications;
  lift (find_duplicate data existing_applications).

(** An error while checking counts as "not a duplicate". *)
Definition _is_duplicate (data : dict) : M bool :=
  try_except (_is_duplicate_body data) (fun _ => mret false).

(** [if company_research:] for the answer of the language model. *)
Definition has_text (r : option string) : option string :=
  match r with
  | Some text => if bool_decide (text = "") then None else Some text
  | None => None
  end.

(** The body of the [try] block of [_get_company_research]. *)
Definition _get_company_research_body (company : pyval) : M string :=
  blank ← lift (is_blank company);
  if (blank : bool) then mret "No company name provided"
  else
    match company with
    | PStr name =>
        let file := research_file name in
        ex ← path_exists file;
        cached ← (if (ex : bool) then
                    lines ← read_note file;
                    if decide (3 < length lines)
                    then mret (Some (strip (String.concat "" (drop 3 lines))))
                    else mret None
                  else mret None);
        match cached with
        | Some body => mret body
        | None =>
            company_research ← call_model name;
            match has_text company_research with
            | Some text =>
                stamp ← get_now;
                write_note file (note_text name stamp text);;
                mret text
            | None => mret ""
            end
        end
    | _ => lift (Raise AttributeError)
    end.

Definition _get_company_research (company : pyval) : M string :=
  try_except (_get_company_research_body company) (fun _ => mret "").

Definition required_fields : list string := ["title"; "company"; "status"; "date"].

(** The body of the [try] block of [save_to_csv]. *)
Definition save_to_csv_body (data : dict) : M bool :=
  if negb (forallb (contains data) required_fields) then mret false
  else
    blank ← lift (getitem data "company" ≫= is_blank);
    if (blank : bool) then mret false
    else
      dup ← _is_duplicate data;
      if (dup : bool) then mret true
      else
        company ← lift (getitem data "company");
        company_research ← _get_company_research company;
        let data :=
          if truthy (PStr company_research)
          then <[Some "research" := PStr company_research]> data
          else <[Some "research" := PStr ""]> data in
        open_csv_a;;
        writerow data;;
        mret true.

Definition save_to_csv (data : dict) : M bool :=
  try_except (save_to_csv_body data) (fun _ => mret false).

(** [unique_apps[key] = app] on a dict that keeps insertion order: a key
    already there keeps its place and takes the new value. *)
Fixpoint odict_set {K V} `{EqDecision K} (k : K) (v : V) (d : list (K * V))
  : list (K * V) :=
  match d with
  | [] => [(k, v)]
  | (k', v') :: rest =>
      if decide (k' = k) then (k, v) :: rest else (k', v') :: odict_set k v rest
  end.

(** The first loop of [remove_duplicates]. *)
Fixpoint collect_unique (applications : list dict)
    (unique_apps : list ((string * string) * dict)) (invalid_apps : list dict)
  : result (list ((string * string) * dict) * list dict) :=
  match applications with
  | [] => Ok (unique_apps, invalid_apps)
  | app :: rest =>
      blank ← is_blank (dict_get app "company");
      if (blank : bool) then collect_unique rest unique_apps (invalid_apps ++ [app])
      else
        t ← getitem app "title" ≫= py_lower;
        c ← getitem app "company" ≫= py_lower;
        collect_unique rest (odict_set (t, c) app unique_apps) invalid_apps
  end.

(** The second loop of [remove_duplicates], inside [with open(..., 'w')]. *)
Fixpoint write_unique (apps : list dict) : M unit :=
  match apps with
  | [] => mret tt
  | app :: rest =>
      app' ← (if negb (contains app "research") then
                company ← lift (getitem app "company");
                r ← _get_company_research company;
                mret (<[Some "research" := PStr r]> app)
              else mret app);
      writerow app';;
      write_unique rest
  end.

Definition remove_duplicates_body : M bool :=
  applications ← get_all_applications;
  match applications with
  | [] => mret true
  | _ =>
      '(unique_apps, invalid_apps) ← lift (collect_unique applications [] []);
      open_csv_w;;
      writeheader;;
      write_unique (unique_apps.*2);;
      mret true
  end.

Definition remove_duplicates : M bool :=
  try_except remove_duplicates_body (fun _ => mret false).

(** ** generate_research_for_all_companies *)

(** [app['company'] for app in applications] *)
Fixpoint companies_of (applications : list dict) : result (list pyval) :=
  match applications with
  | [] => Ok []
  | app :: rest =>
      c ← getitem app "company";
      cs ← companies_of rest;
      Ok (c :: cs)
  end.

(** The loop over the companies; the result is [research_generated]. *)
Fixpoint generate_missing (companies : list pyval) (research_generated : nat)
  : M nat :=
  match companies with
  | [] => mret research_generated
  | company :: rest =>
      blank ← lift (is_blank company);
      if (blank : bool) then generate_missing rest research_generated
      else
        match company with
        | PStr name =>
            let file := research_file name in
            ex ← path_exists file;
            if (ex : bool) then generate_missing rest research_generated
            else
              company_research ← call_model name;
              match has_text company_research with
              | Some text =>
                  stamp ← get_now;
                  write_note file (note_text name stamp text);;
                  generate_missing rest (S research_generated)
              | None => generate_missing rest research_generated
              end
        | _ => lift (Raise AttributeError)
        end
  end.

Definition generate_research_for_all_companies : M nat :=
  try_except
    (JobApplicationTracker;;
     applications ← get_all_applications;
     match applications with
     | [] => mret 0
     | _ =>
         companies ← lift (companies_of applications);
         generate_missing (set_iter companies) 0
     end)
    (fun _ => mret 0).

End Tracker.


(** ** Vocabulary of the specification *)

Section Vocabulary.
Context `{Python}.

(** The records the store lists: the rows of the store file when it can
    be read, none otherwise. *)
Definition stored (w : world) : list dict :=
  match csv w with
  | Some table => if csv_can_read w then DictReader table else []
  | None => []
  end.

(** Empty, or only whitespace. *)
Definition blank_text (s : string) : Prop := s = "" ∨ strip s = "".

(** The identity key [(lowercase(title), lowercase(company))] of a record
    whose title and company are strings. *)
Definition identity (d : dict) : option (string * string) :=
  match d !! Some "title", d !! Some "company" with
  | Some (PStr t), Some (PStr c) => Some (lower t, lower c)
  | _, _ => None
  end.

(** The row written for a record of the five fields, with [text] as its
    research. *)
Definition row_of (d : dict) (text : string) : list string :=
  [cell (dict_get d "title"); cell (dict_get d "company");
   cell (dict_get d "status"); cell (dict_get d "date"); text].

(** A valid record: its company is a string that is not blank. *)
Definition valid (a : dict) : Prop :=
  exists c, a !! Some "company" = Some (PStr c) /\ ~ blank_text c.

(** [row] is what [remove_duplicates] writes for the record [b]: its
    title, company, status and date, and its research when it has one. *)
Definition written (b : dict) (row : list string) : Prop :=
  dom b ⊆ field_keys /\
  exists text, row = row_of b text /\
    forall v, b !! Some "research" = Some v -> text = cell v.

(** The identity key of a row of the store file, read under the five
    field names. *)
Definition row_identity (row : list string) : option (string * string) :=
  identity (read_row fieldnames row).

(** Values a csv row holds under a field name: [None] or a string. *)
Definition plain (v : pyval) : Prop := v = PNone \/ exists s, v = PStr s.

(** A record as the tracker can write it back: no key beyond the five
    field names, a title, and a company that is a string or [None]. *)
Definition well_formed (a : dict) : Prop :=
  dom a ⊆ field_keys /\
  (exists t, a !! Some "title" = Some (PStr t)) /\
  plain (dict_get a "company").


(** Research touches the research directory and the logs, never the
    store file. *)
Definition same_store (w w' : world) : Prop :=
  csv w' = csv w /\ csv_can_read w' = csv_can_read w /\
  csv_can_write w' = csv_can_write w.

(** The entries of [unique_apps]: valid records under their identity key. *)
Definition entry_ok (p : (string * string) * dict) : Prop :=
  valid p.2 /\ identity p.2 = Some p.1.

(** The body of a research file: what follows its first three lines. *)
Definition note_body (text : string) : string :=
  strip (String.concat "" (drop 3 (readlines text))).

End Vocabulary.

Section BatchVocabulary.
Context `{Python} `{Collaborator}.


End BatchVocabulary.

(** The names of a list of companies. *)
Abbreviation among names := (fun c : string => PStr c ∈ (names : list pyval)).


(** ** Text without line breaks *)

(** No character of [s] is one of [chars]. *)
Fixpoint free_of (chars : list ascii) (s : string) : Prop :=
  match s with
  | EmptyString => True
  | String c rest => (c ∉ chars) /\ free_of chars rest
  end.

(** The text has no line feed and no carriage return. *)
Definition one_line (s : string) : Prop := free_of [LF; CR] s.

(** ** Stores in the five-column layout *)

Section Layout.
Context `{Python}.

(** The store file can be read and written and holds the five field names
    as its header, followed by [rows] of five cells each. *)
Definition five_column_store (w : world) (rows : list (list string)) : Prop :=
  csv w = Some (fieldnames :: rows) /\
  csv_can_read w = true /\ csv_can_write w = true /\
  Forall (fun row => length row = 5) rows.

(** The identity key of a record that [remove_duplicates] keeps: that of
    a record whose company is a string that is not blank. *)
Definition valid_key (a : dict) : option (string * string) :=
  match a !! Some "company" with
  | Some (PStr c) => if bool_decide (blank_text c) then None else identity a
  | _ => None
  end.

(** The elements of a list in the order of their first occurrence. *)
Fixpoint first_seen {A} `{EqDecision A} (l : list A) : list A :=
  match l with
  | [] => []
  | x :: l' => x :: filter (fun y => y ≠ x) (first_seen l')
  end.

(** A record the first loop of [remove_duplicates] can look at: it has a
    title, and its company is a string or [None]. *)
Definition scannable (a : dict) : Prop :=
  (exists t, a !! Some "title" = Some (PStr t)) /\ plain (dict_get a "company").

End Layout.

(** * The daily summary: [is_today] of [app/main.py]

    [run_agent] keeps, for its summary, the stored applications whose
    ['date'] passes [is_today].  [datetime.strptime] and the month names of
    ['%B'] are an interface; [today] is the date [datetime.now()] gives
    during the call. *)

Record date := { year : nat; month : nat; day : nat }.

(** [strptime date_str fmt] is [None] when [datetime.strptime] raises
    [ValueError]. *)
Class Calendar := {
  strptime : string -> string -> option date;
  month_name : nat -> string
}.

Definition digit (n : nat) : ascii := ascii_of_nat (48 + n mod 10).

Definition two_digits (n : nat) : string :=
  String (digit (n / 10)) (String (digit n) "").

Definition four_digits (n : nat) : string :=
  String (digit (n / 1000)) (String (digit (n / 100)) (two_digits n)).

(** [b.startswith(a)] *)
Fixpoint starts_with (a b : string) : bool :=
  match a, b with
  | "", _ => true
  | String x a', String y b' => bool_decide (x = y) && starts_with a' b'
  | String _ _, "" => false
  end.

(** [a in b], for strings *)
Fixpoint str_in (a b : string) : bool :=
  starts_with a b ||
  match b with
  | "" => false
  | String _ b' => str_in a b'
  end.

Section Main.
Context `{Python} `{Calendar}.
Variable today : date.

(** One directive of [strftime]: those [is_today] uses. *)
Definition directive (c : ascii) : string :=
  if bool_decide (c = "Y"%char) then four_digits (year today)
  else if bool_decide (c = "m"%char) then two_digits (month today)
  else if bool_decide (c = "d"%char) then two_digits (day today)
  else if bool_decide (c = "B"%char) then month_name (month today)
  else String "%" (String c "").

(** [datetime.now().strftime(fmt)] *)
Fixpoint strftime (fmt : string) : string :=
  match fmt with
  | "" => ""
  | String a r =>
      match r with
      | String c rest =>
          if bool_decide (a = "%"%char) then directive c +:+ strftime rest
          else String a (strftime r)
      | "" => String a ""
      end
  end.

Definition placeholders : list string :=
  ["not provided"; "not specified"; "not available"; "n/a"].

Definition date_formats : list string :=
  ["%Y-%m-%d"; "%B %d, %Y"; "%b %d, %Y"; "%d %B %Y"; "%d %b %Y";
   "%m/%d/%Y"; "%d/%m/%Y"; "%Y/%m/%d"].

(** The loop over the formats stops at the first one that parses the
    string. *)
Fixpoint first_parsed (date_str : string) (formats : list string) : option date :=
  match formats with
  | [] => None
  | fmt :: rest =>
      match strptime date_str fmt with
      | Some parsed_date => Some parsed_date
      | None => first_parsed date_str rest
      end
  end.

Definition same_day (parsed_date : date) : bool :=
  bool_decide (year parsed_date = year today) &&
  bool_decide (month parsed_date = month today) &&
  bool_decide (day parsed_date = day today).

(** The string-based checks that follow the parsing. *)
Definition string_checks (date_str : string) : bool :=
  let today_date := strftime "%Y-%m-%d" in
  let today_text_date := strftime "%B %d, %Y" in
  if str_in today_date date_str || str_in today_text_date date_str then true
  else
    let month_day := strftime "%B %d" in
    let today_year := strftime "%Y" in
    if str_in month_day date_str && str_in today_year date_str then true
    else
      let today_month_num := strftime "%m" in
      let today_day_num := strftime "%d" in
      if str_in today_year date_str &&
         (str_in today_month_num date_str || str_in (strftime "%B") date_str) &&
         str_in today_day_num date_str
      then true
      else false.

Definition is_today (date_str : pyval) : result bool :=
  match date_str with
  | PNone | PStr "" | PList [] => Ok false
  | PList _ => Raise AttributeError
  | PStr s =>
      if bool_decide (lower s ∈ placeholders) then Ok false
      else
        let date_str := strip s in
        match first_parsed date_str date_formats with
        | Some parsed_date =>
            if same_day parsed_date then Ok true
            else Ok (string_checks date_str)
        | None => Ok (string_checks date_str)
        end
  end.

End Main.
(** ** An implementation of the interfaces, for running the code *)

Module Run.

Definition is_space (c : ascii) : bool :=
  let n := nat_of_ascii c in
  (n =? 32)%nat || ((9 <=? n)%nat && (n <=? 13)%nat)
  || ((28 <=? n)%nat && (n <=? 31)%nat).

Definition lower_char (c : ascii) : ascii :=
  let n := nat_of_ascii c in
  if ((65 <=? n)%nat && (n <=? 90)%nat)%bool then ascii_of_nat (n + 32) else c.

Fixpoint lstrip (l : list ascii) : list ascii :=
  match l with
  | c :: rest => if is_space c then lstrip rest else l
  | [] => []
  end.

(** On the characters of ASCII these are [str.lower] and [str.strip]. *)
Definition ascii_lower (s : string) : string :=
  string_of_list_ascii (lower_char <$> list_ascii_of_string s).

Definition ascii_strip (s : string) : string :=
  string_of_list_ascii (reverse (lstrip (reverse (lstrip (list_ascii_of_string s))))).

(** [str] of a list of strings that need no escaping. *)
Definition plain_str_of_list (l : list string) : string :=
  "[" +:+ String.concat ", " ((fun s => "'" +:+ s +:+ "'") <$> l) +:+ "]".

#[export] Instance python : Python := {|
  lower := ascii_lower;
  strip := ascii_strip;
  str_of_list := plain_str_of_list;
  set_iter := remove_dups;
  set_iter_NoDup := NoDup_remove_dups;
  set_iter_elem := fun l x => elem_of_remove_dups l x
|}.

(** A language model that answers with a fixed sentence about the company,
    and fails on the company named "Unknown". *)
#[export] Instance model : Collaborator := {|
  generate_company_research := fun _ company =>
    if bool_decide (company = "Unknown") then None
    else Some (company +:+ " builds software.")
|}.

Definition world0 (table : option (list (list string))) : world :=
  {| csv := table; csv_tail := ""; csv_can_read := true; csv_can_write := true;
     research := ∅; unreadable := ∅; unwritable := ∅;
     lookups := []; gen_log := []; now := "2024-03-01 09:00:00" |}.

Definition record (title company status date : string) : dict :=
  <[Some "title" := PStr title]>
    (<[Some "company" := PStr company]>
      (<[Some "status" := PStr status]>
        (<[Some "date" := PStr date]> ∅))).

(** A store with one application. *)
Definition acme_store : world :=
  world0 (Some [fieldnames; ["Engineer"; "Acme"; "Submitted"; "2024-01-01"; ""]]).

(** A store whose first row stops after the title. *)
Definition short_row_store : world :=
  world0 (Some [fieldnames; ["Engineer"];
                ["Engineer"; "Acme"; "Submitted"; "2024-01-01"; ""]]).

(** A candidate with a key that is no field name: the csv writer raises
    [ValueError] after the file was opened. *)
Definition with_location : dict :=
  <[Some "location" := PStr "Berlin"]> (record "Engineer" "Initech" "Submitted" "2024-01-05").

(** A store file that exists and cannot be opened for reading. *)
Definition locked_store : world :=
  {| csv := Some [fieldnames; ["Engineer"; "Acme"; "Submitted"; "2024-01-01"; ""];
                  ["Engineer"; "Acme"; "Interview"; "2024-02-01"; ""]];
     csv_tail := ""; csv_can_read := false; csv_can_write := true;
     research := ∅; unreadable := ∅; unwritable := ∅;
     lookups := []; gen_log := []; now := "2024-03-01 09:00:00" |}.

(** No store file, and none can be created. *)
Definition no_store : world :=
  {| csv := None; csv_tail := ""; csv_can_read := true; csv_can_write := false;
     research := ∅; unreadable := ∅; unwritable := ∅;
     lookups := []; gen_log := []; now := "2024-03-01 09:00:00" |}.



(** Four applications: a company with a note, a company the language model
    knows nothing of, a row without company, and a new company. *)
Definition four_rows : world :=
  {| csv := Some [fieldnames;
                  ["Engineer"; "Acme"; "Submitted"; "2024-01-01"; ""];
                  ["Analyst"; "Unknown"; "Submitted"; "2024-01-02"; ""];
                  ["Clerk"; ""; "Submitted"; "2024-01-03"; ""];
                  ["Tester"; "Initech"; "Submitted"; "2024-01-04"; ""]];
     csv_tail := ""; csv_can_read := true; csv_can_write := true;
     research := {[ "Acme.txt" := note_text "Acme" "2019-05-05 10:00:00" "Makes anvils." ]};
     unreadable := ∅; unwritable := ∅;
     lookups := []; gen_log := []; now := "2024-03-01 09:00:00" |}.


(** Two rows for the key [("a", "co")]. *)
Definition first_row : list string := ["A"; "Co"; "Submitted"; "2024-01-01"; ""].

Definition second_row : list string := ["A"; "Co"; "Interview"; "2024-02-01"; ""].

Definition two_statuses : world := world0 (Some [fieldnames; first_row; second_row]).

(** A file of the time before research was kept, with a duplicate, a row
    without company and a row that stops after the title. *)
Definition legacy_store : world :=
  world0 (Some [["title"; "company"; "status"; "date"];
                ["A"; "Co"; "Submitted"; "2024-01-01"];
                ["B"; "  "; "Submitted"; "2024-01-02"];
                ["C"];
                ["a"; "CO"; "Interview"; "2024-02-01"]]).

(** Two rows for the key [("a", "co")], the second with a cell beyond the
    header. *)
Definition overlong_row : world :=
  world0 (Some [fieldnames; first_row; second_row ++ ["extra"]]).

(** A store file whose last line has no line break. *)
Definition open_line_store : world :=
  {| csv := Some [fieldnames; ["Engineer"; "Acme"; "Submitted"; "2024-01-01"; "x"]];
     csv_tail := "Engineer,Acme,Submitted,2024-01-01,x";
     csv_can_read := true; csv_can_write := true;
     research := ∅; unreadable := ∅; unwritable := ∅;
     lookups := []; gen_log := []; now := "2024-03-01 09:00:00" |}.

End Run.

(** ** More inputs for running the code *)

Module RunMore.
Import Run.

(** The value of a string of decimal digits. *)
Fixpoint number (s : string) (acc : nat) : option nat :=
  match s with
  | "" => Some acc
  | String c rest =>
      let n := nat_of_ascii c in
      if ((48 <=? n)%nat && (n <=? 57)%nat)%bool
      then number rest (10 * acc + (n - 48))
      else None
  end.

(** A parser for the layout [2025-04-15] of ['%Y-%m-%d'] alone. *)
Definition parse_iso (s fmt : string) : option date :=
  if bool_decide (fmt = "%Y-%m-%d" /\ String.length s = 10 /\
                  String.get 4 s = Some "-"%char /\
                  String.get 7 s = Some "-"%char)
  then
    y ← number (String.substring 0 4 s) 0;
    m ← number (String.substring 5 2 s) 0;
    d ← number (String.substring 8 2 s) 0;
    Some {| year := y; month := m; day := d |}
  else None.

Definition english_month (m : nat) : string :=
  nth m [""; "January"; "February"; "March"; "April"; "May"; "June"; "July";
         "August"; "September"; "October"; "November"; "December"] "".

#[export] Instance calendar : Calendar := {|
  strptime := parse_iso;
  month_name := english_month
|}.

Definition february_20 : date := {| year := 2025; month := 2; day := 20 |}.
Definition april_15 : date := {| year := 2025; month := 4; day := 15 |}.

(** A candidate without status. *)
Definition without_status : dict :=
  <[Some "title" := PStr "Tester"]>
    (<[Some "company" := PStr "Initech"]>
      (<[Some "date" := PStr "2024-01-04"]> ∅)).

Definition tester : dict := record "Tester" "Initech" "Submitted" "2024-01-04".

(** The research file of "Acme" exists and cannot be opened. *)
Definition locked_note : world :=
  {| csv := Some [fieldnames]; csv_tail := ""; csv_can_read := true; csv_can_write := true;
     research := {[ "Acme.txt" := note_text "Acme" "2019-05-05 10:00:00" "Makes anvils." ]};
     unreadable := {[ "Acme.txt" ]}; unwritable := ∅;
     lookups := []; gen_log := []; now := "2024-03-01 09:00:00" |}.

(** A store file to which a sixth column was added by hand. *)
Definition six_columns : world :=
  world0 (Some [fieldnames ++ ["notes"];
                ["Engineer"; "Acme"; "Submitted"; "2024-01-01"; ""; "call back"];
                ["Tester"; "Initech"; "Submitted"; "2024-01-04"; ""; ""]]).

(** Three rows, the third with the key of the first. *)
Definition reordered : world :=
  world0 (Some [fieldnames;
                ["A"; "Co"; "Submitted"; "2024-01-01"; "r1"];
                ["B"; "Other"; "Submitted"; "2024-01-02"; "r2"];
                ["a"; "CO"; "Interview"; "2024-02-01"; "r3"]]).

Definition two_companies_rows : list (list string) :=
  [["Engineer"; "Acme"; "Submitted"; "2024-01-01"; "Makes anvils."];
   ["Tester"; "Initech"; "Submitted"; "2024-01-04"; ""]].

(** Two rows with different keys. *)
Definition two_companies : world := world0 (Some (fieldnames :: two_companies_rows)).

End RunMore.

(** * Properties *)

Ltac run :=
  unfold mbind, mret, M_bind, M_ret, result_bind, result_ret, lift, try_except in *.

Section Basics.
Context `{Python} `{Collaborator}.

Lemma get_all_applications_stored w :
  get_all_applications w = (Ok (stored w), w).
Proof.
  unfold get_all_applications, stored, open_csv_r. run.
  destruct (csv w) as [table|]; [destruct (csv_can_read w)|]; reflexivity.
Qed.

Lemma is_blank_text s : is_blank (PStr s) = Ok (bool_decide (blank_text s)).
Proof.
  unfold is_blank, py_strip, truthy. run.
  destruct (decide (s = "")) as [Hs|Hs].
  - rewrite (bool_decide_eq_true_2 (s = "") Hs). simpl.
    f_equal. symmetry. apply bool_decide_eq_true_2. by left.
  - rewrite (bool_decide_eq_false_2 (s = "") Hs). simpl.
    f_equal. apply bool_decide_ext. unfold blank_text. tauto.
Qed.

Lemma identity_Some d k :
  identity d = Some k ->
  exists t c, d !! Some "title" = Some (PStr t) /\ d !! Some "company" = Some (PStr c)
              /\ k = (lower t, lower c).
Proof.
  unfold identity. intros Hk.
  destruct (d !! Some "title") as [[|t|]|]; try done.
  destruct (d !! Some "company") as [[|c|]|]; try done.
  exists t, c. by inversion Hk.
Qed.

(** One step of the scan, for rows that have an identity. *)
Lemma find_duplicate_cons data app rest k k' :
  identity data = Some k -> identity app = Some k' ->
  find_duplicate data (app :: rest) =
    if bool_decide (k' = k) then Ok true else find_duplicate data rest.
Proof.
  intros (t & c & Ht & Hc & ->)%identity_Some (t' & c' & Ht' & Hc' & ->)%identity_Some.
  simpl. unfold getitem, py_lower. rewrite Ht, Hc, Ht', Hc'. run. simpl.
  destruct (decide (lower t' = lower t)) as [Et|Et].
  - rewrite (bool_decide_eq_true_2 _ Et).
    destruct (decide (lower c' = lower c)) as [Ec|Ec].
    + rewrite (bool_decide_eq_true_2 _ Ec).
      by rewrite bool_decide_eq_true_2 by congruence.
    + rewrite (bool_decide_eq_false_2 _ Ec).
      by rewrite bool_decide_eq_false_2 by congruence.
  - rewrite (bool_decide_eq_false_2 _ Et).
    by rewrite bool_decide_eq_false_2 by congruence.
Qed.

Lemma find_duplicate_found data apps k :
  identity data = Some k ->
  Forall (fun a => is_Some (identity a)) apps ->
  (exists app, app ∈ apps /\ identity app = Some k) ->
  find_duplicate data apps = Ok true.
Proof.
  intros Hk Hall. induction Hall as [|a apps [k' Ha] _ IH]; intros (app & Hin & Happ).
  - by apply elem_of_nil in Hin.
  - rewrite (find_duplicate_cons _ _ _ _ _ Hk Ha).
    case_bool_decide; [done|].
    apply IH. exists app. split; [|done].
    apply elem_of_cons in Hin as [->|Hin]; [congruence|done].
Qed.

Lemma _is_duplicate_run data w :
  _is_duplicate data w =
    (Ok (match find_duplicate data (stored w) with Ok b => b | Raise _ => false end), w).
Proof.
  unfold _is_duplicate, _is_duplicate_body. run. rewrite get_all_applications_stored.
  by destruct (find_duplicate data (stored w)).
Qed.

Lemma same_store_refl w : same_store w w.
Proof. by repeat split. Qed.

Lemma same_store_trans w1 w2 w3 :
  same_store w1 w2 -> same_store w2 w3 -> same_store w1 w3.
Proof. unfold same_store. intros (?&?&?) (?&?&?). repeat split; congruence. Qed.

Lemma _get_company_research_body_store company w r w' :
  _get_company_research_body company w = (r, w') -> same_store w w'.
Proof.
  unfold _get_company_research_body, path_exists, read_note, call_model,
    get_now, write_note. run.
  destruct (is_blank company) as [[]|]; [by intros [= _ <-]| |by intros [= _ <-]].
  destruct company as [|name|]; try by intros [= _ <-].
  simpl. case_bool_decide; simpl.
  - destruct (research w !! research_file name) as [text|]; simpl;
      [case_bool_decide; simpl; [by intros [= _ <-]|]|by intros [= _ <-]].
    case_decide; simpl; [by intros [= _ <-]|].
    destruct (has_text _); simpl; [|by intros [= _ <-]].
    case_bool_decide; by intros [= _ <-].
  - destruct (has_text _); simpl; [|by intros [= _ <-]].
    case_bool_decide; by intros [= _ <-].
Qed.

Lemma _get_company_research_run company w :
  exists text w', _get_company_research company w = (Ok text, w') /\ same_store w w'.
Proof.
  unfold _get_company_research. run.
  destruct (_get_company_research_body company w) as [[text|e] w'] eqn:E;
    apply _get_company_research_body_store in E; eauto.
Qed.

(** Research leaves the last line of the store file as it is. *)
Lemma _get_company_research_body_tail company w r w' :
  _get_company_research_body company w = (r, w') -> csv_tail w' = csv_tail w.
Proof.
  unfold _get_company_research_body, path_exists, read_note, call_model,
    get_now, write_note. run.
  destruct (is_blank company) as [[]|]; [by intros [= _ <-]| |by intros [= _ <-]].
  destruct company as [|name|]; try by intros [= _ <-].
  simpl. case_bool_decide; simpl.
  - destruct (research w !! research_file name) as [text|]; simpl;
      [case_bool_decide; simpl; [by intros [= _ <-]|]|by intros [= _ <-]].
    case_decide; simpl; [by intros [= _ <-]|].
    destruct (has_text _); simpl; [|by intros [= _ <-]].
    case_bool_decide; by intros [= _ <-].
  - destruct (has_text _); simpl; [|by intros [= _ <-]].
    case_bool_decide; by intros [= _ <-].
Qed.

Lemma _get_company_research_tail company w :
  csv_tail (_get_company_research company w).2 = csv_tail w.
Proof.
  unfold _get_company_research. run.
  destruct (_get_company_research_body company w) as [[text|e] w'] eqn:E;
    by apply _get_company_research_body_tail in E.
Qed.

(** The writer on a file that ends with a line break adds a row. *)
Lemma csv_writerow_complete (row : list string) (w : world) :
  csv_tail w = "" ->
  csv_writerow row w = (Ok tt, set_csv (Some (store_rows w ++ [row])) w).
Proof. intros Htail. unfold csv_writerow, appended. by rewrite Htail. Qed.

(** The writer never fails once the file is open. *)
Lemma csv_writerow_run (row : list string) (w : world) :
  csv_writerow row w =
    (Ok tt, set_file (Some (appended (store_rows w) (csv_tail w) row).1)
                     (appended (store_rows w) (csv_tail w) row).2 w).
Proof. unfold csv_writerow. by destruct (appended _ _ _). Qed.

Lemma writeheader_fresh (w : world) :
  writeheader (set_csv (Some []) w)
    = (Ok tt, set_csv (Some [fieldnames]) (set_csv (Some []) w)).
Proof. reflexivity. Qed.

Lemma cell_default (o : option pyval) :
  cell (default (PStr "") o) = cell (default PNone o).
Proof. by destruct o. Qed.

Lemma dict_to_list_research (data : dict) (text : string) :
  dom data ⊆ field_keys ->
  dict_to_list (<[Some "research" := PStr text]> data) = Ok (row_of data text).
Proof.
  intros Hdom. unfold dict_to_list.
  rewrite bool_decide_eq_true_2.
  - unfold row_of, dict_get, fieldnames. simpl.
    rewrite lookup_insert_eq.
    rewrite !lookup_insert_ne by done.
    by rewrite !cell_default.
  - rewrite dom_insert_L. apply union_least; [|done].
    apply singleton_subseteq_l. by vm_compute.
Qed.


End Basics.

(** * Rows read from the csv file *)

Section Rows.
Context `{Python}.


Lemma foldl_insert_plain {A} (g : A -> string) (h : A -> pyval) (l : list A)
    (acc : dict) :
  (forall x, plain (h x)) ->
  (forall k v, acc !! Some k = Some v -> plain v) ->
  forall k v,
    foldl (fun (d : dict) x => <[Some (g x) := h x]> d) acc l !! Some k = Some v ->
    plain v.
Proof.
  intros Hh. revert acc. induction l as [|x l IH]; intros acc Hacc; simpl; [done|].
  apply IH. intros k v [[_ <-]|[_ ?]]%lookup_insert_Some; eauto.
Qed.



(** Under a string key a row holds a string or [None]. *)
Lemma read_row_plain (fnames row : list string) (k : string) (v : pyval) :
  read_row fnames row !! Some k = Some v -> plain v.
Proof.
  unfold read_row. case_decide as Hlen.
  - rewrite lookup_insert_ne by done.
    apply (foldl_insert_plain fst (fun p => PStr p.2)).
    + intros p. right. by eexists.
    + intros ? ?. by rewrite lookup_empty.
  - apply (foldl_insert_plain id (fun _ => PNone)).
    + intros _. by left.
    + apply (foldl_insert_plain fst (fun p => PStr p.2)).
      * intros p. right. by eexists.
      * intros ? ?. by rewrite lookup_empty.
Qed.


(** A store file with the five field names as its header, or the four of
    the time before research was kept, and no row longer than the header,
    lists well-formed records. *)
Lemma layout_well_formed (w : world) (fnames : list string)
    (rows : list (list string)) :
  csv w = Some (fnames :: rows) ->
  fnames = fieldnames \/ fnames = ["title"; "company"; "status"; "date"] ->
  Forall (fun row => length row <= length fnames) rows ->
  Forall well_formed (stored w).
Proof.
  intros Hcsv Hnames Hlen. unfold stored. rewrite Hcsv.
  destruct (csv_can_read w); [|constructor]. simpl.
  apply Forall_fmap, Forall_forall. intros row [Hne Hin]%list_elem_of_filter.
  eapply Forall_forall in Hlen; [|exact Hin]. simpl.
  assert (Hwf : forall a : dict,
    bool_decide (dom a ⊆ field_keys) = true ->
    (exists t, a !! Some "title" = Some (PStr t)) ->
    (forall v, a !! Some "company" = Some v -> plain v) ->
    well_formed a).
  { intros a Hdom Ht Hc. split; [by apply bool_decide_eq_true in Hdom|].
    split; [done|]. unfold dict_get.
    destruct (a !! Some "company") as [v|]; [by apply Hc|by left]. }
  apply Hwf; [| |apply read_row_plain].
  - destruct Hnames as [-> | ->];
      destruct row as [|t [|c [|s [|d [|x [|]]]]]]; simpl in Hlen; try lia;
      try done; reflexivity.
  - destruct Hnames as [-> | ->]; destruct row as [|t row]; try done;
      exists t.
    + unfold read_row. simpl.
      destruct row as [|c [|s [|d [|x [|]]]]]; simpl in Hlen; try lia; reflexivity.
    + unfold read_row. simpl.
      destruct row as [|c [|s [|d [|]]]]; simpl in Hlen; try lia; reflexivity.
Qed.

End Rows.

(** * The insertion-ordered dict and the first loop of remove_duplicates *)

Section OrderedDict.
Context {K V : Type} `{EqDecision K}.
Implicit Types (k : K) (v : V) (d : list (K * V)).

Lemma odict_set_keys_in k v d : k ∈ d.*1 -> (odict_set k v d).*1 = d.*1.
Proof.
  induction d as [|[k' v'] d IH]; simpl.
  - intros Hk. by apply elem_of_nil in Hk.
  - intros Hk. case_decide as Hkk; simpl; [by subst|].
    f_equal. apply IH. apply elem_of_cons in Hk as [->|Hk]; done.
Qed.

Lemma odict_set_fresh k v d : k ∉ d.*1 -> odict_set k v d = d ++ [(k, v)].
Proof.
  induction d as [|[k' v'] d IH]; simpl; [done|].
  intros Hk. apply not_elem_of_cons in Hk as [Hne Hk].
  rewrite decide_False by done. by rewrite IH.
Qed.

Lemma odict_set_NoDup k v d : NoDup d.*1 -> NoDup (odict_set k v d).*1.
Proof.
  intros Hnd. destruct (decide (k ∈ d.*1)) as [Hin|Hout].
  - by rewrite odict_set_keys_in.
  - rewrite odict_set_fresh, fmap_app by done. simpl.
    apply NoDup_app. split; [done|]. split; [|apply NoDup_singleton].
    intros k' Hk' ->%list_elem_of_singleton. done.
Qed.



Lemma odict_set_elem_inv k v k' v' d :
  (k', v') ∈ odict_set k v d -> (k' = k /\ v' = v) \/ (k', v') ∈ d.
Proof.
  induction d as [|[k0 v0] d IH]; simpl.
  - intros [= -> ->]%list_elem_of_singleton. by left.
  - case_decide.
    + intros [[= -> ->]|Hin]%elem_of_cons; [by left|].
      right. by apply list_elem_of_further.
    + intros [[= -> ->]|Hin]%elem_of_cons; [right; apply list_elem_of_here|].
      destruct (IH Hin) as [?|?]; [by left|right; by apply list_elem_of_further].
Qed.

End OrderedDict.

Section Collect.
Context `{Python}.

Lemma is_blank_company (a : dict) (b : bool) :
  is_blank (dict_get a "company") = Ok b -> if b then ~ valid a else valid a.
Proof.
  unfold dict_get, valid.
  destruct (a !! Some "company") as [[|c|l]|] eqn:E; simpl.
  - intros [= <-]. by intros (? & [=] & _).
  - rewrite is_blank_text. intros [= <-]. case_bool_decide.
    + intros (? & [= <-] & ?). done.
    + by exists c.
  - unfold is_blank. simpl. case_bool_decide; simpl; [|done].
    intros [= <-]. by intros (? & [=] & _).
  - intros [= <-]. by intros (? & [=] & _).
Qed.

Lemma is_blank_valid (a : dict) :
  valid a -> is_blank (dict_get a "company") = Ok false.
Proof.
  intros (c & Hc & Hnb). unfold dict_get. rewrite Hc. simpl.
  rewrite is_blank_text. by rewrite bool_decide_eq_false_2.
Qed.

Lemma collect_unique_valid a rest u inv k :
  valid a -> identity a = Some k ->
  collect_unique (a :: rest) u inv = collect_unique rest (odict_set k a u) inv.
Proof.
  intros Hv (t & c & Ht & Hc & ->)%identity_Some. simpl.
  rewrite (is_blank_valid _ Hv). run. unfold getitem. by rewrite Ht, Hc.
Qed.

Lemma collect_unique_invalid a rest u inv :
  is_blank (dict_get a "company") = Ok true ->
  collect_unique (a :: rest) u inv = collect_unique rest u (inv ++ [a]).
Proof. intros Hb. simpl. by rewrite Hb. Qed.

(** How a step of the loop that does not raise went. *)
Lemma collect_unique_step a rest u inv r :
  collect_unique (a :: rest) u inv = Ok r ->
  (~ valid a /\ collect_unique rest u (inv ++ [a]) = Ok r) \/
  (exists k, entry_ok (k, a) /\ collect_unique rest (odict_set k a u) inv = Ok r).
Proof.
  simpl. run. destruct (is_blank (dict_get a "company")) as [[]|] eqn:Hb; [| |done].
  - intros Hr. left. split; [|done]. by apply is_blank_company in Hb.
  - apply is_blank_company in Hb. unfold getitem.
    destruct (a !! Some "title") as [[|t|]|] eqn:Ht; try done.
    destruct (a !! Some "company") as [[|c|]|] eqn:Hc; try done.
    simpl. intros Hr. right. exists (lower t, lower c). split; [|done].
    split; [done|]. unfold identity. simpl. by rewrite Ht, Hc.
Qed.

Lemma collect_unique_entries apps :
  forall u inv u' inv',
    NoDup u.*1 -> Forall entry_ok u ->
    collect_unique apps u inv = Ok (u', inv') ->
    NoDup u'.*1 /\ Forall entry_ok u'.
Proof.
  induction apps as [|a apps IH]; intros u inv u' inv' Hnd Hok.
  - by intros [= <- <-].
  - intros [[_ Hr]|(k & Hk & Hr)]%collect_unique_step.
    + by eapply IH.
    + eapply IH; [| |exact Hr].
      * by apply odict_set_NoDup.
      * apply Forall_forall. intros [k' b] [[-> ->]|Hin]%odict_set_elem_inv; [done|].
        by eapply Forall_forall in Hok.
Qed.

Lemma collect_unique_entries_start apps u inv :
  collect_unique apps [] [] = Ok (u, inv) ->
  NoDup u.*1 /\ Forall entry_ok u.
Proof.
  apply collect_unique_entries; [apply NoDup_nil_2|apply Forall_nil_2].
Qed.

Lemma collect_unique_app l1 l2 u inv :
  collect_unique (l1 ++ l2) u inv =
    match collect_unique l1 u inv with
    | Ok (u1, inv1) => collect_unique l2 u1 inv1
    | Raise e => Raise e
    end.
Proof.
  revert u inv. induction l1 as [|a l1 IH]; intros u inv; [done|].
  simpl. run. destruct (is_blank _) as [[]|]; [by rewrite IH| |done].
  destruct (getitem a "title" ≫= py_lower) as [t|] eqn:Et; run; rewrite Et; [|done].
  destruct (getitem a "company" ≫= py_lower) as [c|] eqn:Ec; run; rewrite Ec; [|done].
  by rewrite IH.
Qed.


End Collect.

(** * The second loop of remove_duplicates *)

Section WriteUnique.
Context `{Python} `{Collaborator}.

Lemma dict_to_list_row (b : dict) (row : list string) :
  dict_to_list b = Ok row ->
  dom b ⊆ field_keys /\
  row = row_of b (cell (default (PStr "") (b !! Some "research"))).
Proof.
  unfold dict_to_list. case_bool_decide as Hdom; [|done].
  intros [= <-]. split; [done|].
  unfold row_of, dict_get, fieldnames. simpl. by rewrite !cell_default.
Qed.

Lemma row_of_insert_research (b : dict) (v : pyval) (text : string) :
  row_of (<[Some "research" := v]> b) text = row_of b text.
Proof. unfold row_of, dict_get. by rewrite !lookup_insert_ne by done. Qed.

(** What the loop has written when it is left, normally or by an
    exception: a row for each record of a prefix of [bs]. *)
Lemma write_unique_rows (bs : list dict) :
  forall (w : world) (r : result unit) (w' : world),
    write_unique bs w = (r, w') ->
    csv_tail w = "" ->
    exists rows,
      store_rows w' = store_rows w ++ rows /\
      Forall2 written (take (length rows) bs) rows /\
      (r = Ok tt -> length rows = length bs) /\
      csv_can_read w' = csv_can_read w /\
      csv_can_write w' = csv_can_write w /\
      (is_Some (csv w) -> is_Some (csv w')).
Proof.
  induction bs as [|b bs IH]; intros w r w'.
  - intros [= <- <-] _. exists []. by rewrite app_nil_r.
  - cbn [write_unique]. run. intros Hrun Htail. revert Hrun.
    assert (Hgo : forall (b' : dict) (w1 : world),
      same_store w w1 -> csv_tail w1 = "" ->
      (forall row, dict_to_list b' = Ok row -> written b row) ->
      (let (r0, w'0) := writerow b' w1 in
       match r0 with
       | Ok _ => write_unique bs w'0
       | Raise e => (Raise e, w'0)
       end) = (r, w') ->
      exists rows,
        store_rows w' = store_rows w ++ rows /\
        Forall2 written (take (length rows) (b :: bs)) rows /\
        (r = Ok tt -> length rows = length (b :: bs)) /\
        csv_can_read w' = csv_can_read w /\
        csv_can_write w' = csv_can_write w /\
        (is_Some (csv w) -> is_Some (csv w'))).
    { intros b' w1 (Hc & Hr & Hw) Htail1 Hrow. unfold writerow. run.
      destruct (dict_to_list b') as [row|e] eqn:Erow.
      - rewrite csv_writerow_complete by done.
        intros Hrest.
        apply IH in Hrest as (rows & Hrows & Hall & Hlen & Hr' & Hw' & Hs'); [|done].
        exists (row :: rows). simpl in *.
        assert (store_rows w1 = store_rows w) as Hsr by (unfold store_rows; by rewrite Hc).
        change (store_rows (set_csv _ w1)) with (store_rows w1 ++ [row]) in Hrows.
        rewrite Hsr in Hrows. rewrite <- app_assoc in Hrows. simpl in Hrows.
        repeat split; try done; try congruence.
        + constructor; [by apply Hrow|done].
        + intros Hok. by rewrite (Hlen Hok).
        + intros _. apply Hs'. by eexists.
      - intros [= <- <-]. exists []. rewrite app_nil_r.
        unfold store_rows. rewrite Hc. repeat split; try done; constructor. }
    destruct (contains b "research") eqn:Hres; simpl.
    + (* the record has its research *)
      apply Hgo; [apply same_store_refl|done|].
      intros row [Hdom ->]%dict_to_list_row. split; [done|].
      eexists. split; [done|]. intros v ->. by destruct v.
    + unfold contains in Hres. apply bool_decide_eq_false in Hres.
      destruct (getitem b "company") as [company|e].
      * destruct (_get_company_research_run company w) as (text & w1 & E & Hst).
        pose proof (_get_company_research_tail company w) as Htail1.
        rewrite E in Htail1 |- *. simpl in Htail1.
        apply Hgo; [done|congruence|].
        intros row [Hdom ->]%dict_to_list_row.
        rewrite lookup_insert_eq, row_of_insert_research. simpl.
        split.
        { etrans; [|exact Hdom]. rewrite dom_insert_L. apply union_subseteq_r. }
        exists text. split; [done|]. intros v Hv. exfalso. apply Hres. by eexists.
      * intros [= <- <-]. exists []. rewrite app_nil_r. repeat split; try done; constructor.
Qed.

(** The loop leaves a file that ends with a line break. *)
Lemma write_unique_tail (bs : list dict) :
  forall (w : world) (r : result unit) (w' : world),
    write_unique bs w = (r, w') -> csv_tail w = "" -> csv_tail w' = "".
Proof.
  induction bs as [|b bs IH]; intros w r w'.
  - by intros [= <- <-].
  - cbn [write_unique]. run. intros Hrun Htail. revert Hrun.
    assert (Hgo : forall (b' : dict) (w1 : world),
      csv_tail w1 = "" ->
      (let (r0, w'0) := writerow b' w1 in
       match r0 with
       | Ok _ => write_unique bs w'0
       | Raise e => (Raise e, w'0)
       end) = (r, w') ->
      csv_tail w' = "").
    { intros b' w1 Htail1. unfold writerow. run.
      destruct (dict_to_list b') as [row|e].
      - rewrite csv_writerow_complete by done. intros Hrest.
        by apply IH in Hrest.
      - by intros [= <- <-]. }
    destruct (contains b "research"); simpl.
    + by apply Hgo.
    + destruct (getitem b "company") as [company|e].
      * destruct (_get_company_research_run company w) as (text & w1 & E & _).
        pose proof (_get_company_research_tail company w) as Htail1.
        rewrite E in Htail1 |- *. simpl in Htail1.
        apply Hgo. congruence.
      * by intros [= <- <-].
Qed.

End WriteUnique.

(** * Saving a record *)

Section Save.
Context `{Python} `{Collaborator}.

(** C5. A candidate whose company is empty, or only whitespace, is
    rejected: [save_to_csv] returns [False] and the world is as before, so
    the store is not changed, no research file is looked up and the
    language model is not called. *)
Theorem save_blank_company_rejected (data : dict) (w : world) (c : string) :
  data !! Some "company" = Some (PStr c) ->
  blank_text c ->
  save_to_csv data w = (Ok false, w).
Proof.
  intros Hc Hblank. unfold save_to_csv, save_to_csv_body.
  destruct (forallb (contains data) required_fields); simpl; [|by run].
  unfold getitem. rewrite Hc. run. rewrite is_blank_text.
  by rewrite bool_decide_eq_true_2.
Qed.

Lemma required_fields_present (data : dict) k :
  identity data = Some k ->
  is_Some (data !! Some "status") -> is_Some (data !! Some "date") ->
  forallb (contains data) required_fields = true.
Proof.
  intros (t & c & Ht & Hc & _)%identity_Some Hs Hd.
  unfold required_fields, contains. simpl.
  rewrite Ht, Hc.
  by rewrite !bool_decide_eq_true_2 by (done || by eexists).
Qed.

(** C1, as amended. A candidate with the four required fields and a
    company that is not blank, whose identity key is that of a record of
    the store, every record of which has a title and a company: the save
    returns [True] and the world is as before, so no row is appended and
    no research is looked up. *)
Theorem save_duplicate_noop (data : dict) (w : world) (k : string * string) (c : string) :
  identity data = Some k ->
  is_Some (data !! Some "status") -> is_Some (data !! Some "date") ->
  data !! Some "company" = Some (PStr c) -> ~ blank_text c ->
  Forall (fun a => is_Some (identity a)) (stored w) ->
  (exists app, app ∈ stored w /\ identity app = Some k) ->
  save_to_csv data w = (Ok true, w).
Proof.
  intros Hk Hs Hd Hc Hnb Hall Hex. unfold save_to_csv, save_to_csv_body.
  rewrite (required_fields_present _ _ Hk Hs Hd). simpl.
  unfold getitem. rewrite Hc. run. rewrite is_blank_text.
  rewrite bool_decide_eq_false_2 by done.
  rewrite _is_duplicate_run.
  by rewrite (find_duplicate_found _ _ _ Hk Hall Hex).
Qed.

End Save.

Section SaveErrors.
Context `{Python} `{Collaborator}.





End SaveErrors.

(** * The research cache *)

Section Cache.
Context `{Python} `{Collaborator}.


End Cache.

(** * Failures of the store file *)

Section StoreFailures.
Context `{Python} `{Collaborator}.

(** C6, as amended. When the store cannot be read, [get_all_applications]
    yields no record, [remove_duplicates] finds nothing to deduplicate and
    returns [True]; the world is as before. *)
Theorem unreadable_store_dedup_succeeds (w : world) (e : exn) (w1 : world) :
  open_csv_r w = (Raise e, w1) ->
  remove_duplicates w = (Ok true, w).
Proof.
  intros Hread. unfold remove_duplicates, remove_duplicates_body. run.
  rewrite get_all_applications_stored.
  replace (stored w) with (@nil dict); [done|].
  revert Hread. unfold open_csv_r, stored.
  destruct (csv w); [destruct (csv_can_read w)|]; by intros.
Qed.

(** What a [try] block whose handler returns a value gives is a value. *)
Lemma try_except_returns {A} (m : M A) (a : A) (w : world) :
  exists x w', try_except m (fun _ => mret a) w = (Ok x, w').
Proof. unfold try_except. run. destruct (m w) as [[x|e] w']; eauto. Qed.

(** C9, as amended. The methods of the tracker other than its constructor,
    and [generate_research_for_all_companies], which builds a tracker
    inside its own [try] block, return a value in every world.  The
    constructor returns unless the store file is absent and cannot be
    created; then [OSError] leaves it. *)
Theorem operations_return (data : dict) (w : world) :
  (exists apps w', get_all_applications w = (Ok apps, w')) /\
  (exists b w', save_to_csv data w = (Ok b, w')) /\
  (exists b w', remove_duplicates w = (Ok b, w')) /\
  (exists n w', generate_research_for_all_companies w = (Ok n, w')) /\
  ((exists w', JobApplicationTracker w = (Ok tt, w')) \/
   (csv w = None /\ csv_can_write w = false /\
    JobApplicationTracker w = (Raise OSError, w))).
Proof.
  repeat split; try apply try_except_returns.
  unfold JobApplicationTracker, _ensure_files_exist, csv_exists, open_csv_w,
    writeheader, csv_writerow. run.
  destruct (csv w) as [table|] eqn:Hcsv.
  - left. rewrite bool_decide_eq_true_2 by (by eexists). by eexists.
  - rewrite bool_decide_eq_false_2 by (by intros [? [=]]).
    destruct (csv_can_write w); [left; by eexists|by right].
Qed.

End StoreFailures.

(** * Research for all companies *)

Section Generate.
Context `{Python} `{Collaborator}.








End Generate.

(** * Deduplication *)

Section Dedup.
Context `{Python} `{Collaborator}.

(** A row of five cells read back under the five field names. *)
Lemma read_row_five (t c s d x : string) :
  read_row fieldnames [t; c; s; d; x] =
    <[Some "research" := PStr x]> (<[Some "date" := PStr d]>
      (<[Some "status" := PStr s]> (<[Some "company" := PStr c]>
        (<[Some "title" := PStr t]> ∅)))).
Proof. reflexivity. Qed.

Lemma row_identity_five (t c s d x : string) :
  row_identity [t; c; s; d; x] = Some (lower t, lower c).
Proof. reflexivity. Qed.

Lemma written_identity (k : string * string) (b : dict) (row : list string) :
  entry_ok (k, b) -> written b row -> row_identity row = Some k.
Proof.
  intros [_ Hid] [_ (text & -> & _)]. simpl in Hid.
  apply identity_Some in Hid as (t & c & Ht & Hc & ->).
  unfold row_of, dict_get. rewrite Ht, Hc. simpl.
  apply row_identity_five.
Qed.

Lemma written_identities (u : list ((string * string) * dict))
    (rows : list (list string)) :
  Forall entry_ok u -> Forall2 written u.*2 rows ->
  row_identity <$> rows = Some <$> u.*1.
Proof.
  revert rows. induction u as [|[k' b] u IH]; intros rows Hok Hall; simpl in *.
  - by apply Forall2_nil_inv_l in Hall as ->.
  - apply Forall2_cons_inv_l in Hall as (row & rows' & Hw & Hall & ->).
    apply Forall_cons in Hok as [Hb Hok]. simpl. f_equal.
    + by apply (written_identity k' b).
    + by apply IH.
Qed.

Lemma collect_unique_total (apps : list dict) :
  Forall well_formed apps ->
  forall u inv, exists u' inv', collect_unique apps u inv = Ok (u', inv').
Proof.
  induction 1 as [|a apps (Hdom & (t & Ht) & Hplain) _ IH]; intros u inv.
  - by eexists _, _.
  - destruct Hplain as [Hc|[c Hc]].
    { rewrite collect_unique_invalid; [apply IH|]. by rewrite Hc. }
    destruct (decide (c = "" \/ strip c = "")) as [Hb|Hnb].
    { rewrite collect_unique_invalid; [apply IH|]. rewrite Hc, is_blank_text.
      by rewrite bool_decide_eq_true_2. }
    assert (Hc' : a !! Some "company" = Some (PStr c)).
    { revert Hc. unfold dict_get.
      destruct (a !! Some "company"); simpl; [by intros ->|done]. }
    rewrite (collect_unique_valid a apps u inv (lower t, lower c)).
    + apply IH.
    + by exists c.
    + unfold identity. by rewrite Ht, Hc'.
Qed.

(** The entries of [unique_apps] are records of the list. *)
Lemma collect_unique_from (apps : list dict) :
  forall u inv u' inv' k b,
    collect_unique apps u inv = Ok (u', inv') ->
    (k, b) ∈ u' -> (k, b) ∈ u \/ b ∈ apps.
Proof.
  induction apps as [|a apps IH]; intros u inv u' inv' k b.
  - intros [= <- <-]. by left.
  - intros [[_ Hr]|(k' & _ & Hr)]%collect_unique_step Hin.
    + destruct (IH _ _ _ _ _ _ Hr Hin) as [?|?]; [by left|].
      right. by apply list_elem_of_further.
    + destruct (IH _ _ _ _ _ _ Hr Hin) as [[[-> ->]|?]%odict_set_elem_inv|?].
      * right. apply list_elem_of_here.
      * by left.
      * right. by apply list_elem_of_further.
Qed.

Lemma write_unique_total (bs : list dict) :
  Forall (fun b => dom b ⊆ field_keys /\ valid b) bs ->
  forall w, exists w', write_unique bs w = (Ok tt, w').
Proof.
  induction 1 as [|b bs [Hdom (c & Hc & _)] _ IH]; intros w.
  - by eexists.
  - cbn [write_unique]. run. unfold writerow. run.
    destruct (contains b "research"); simpl.
    + unfold dict_to_list. rewrite bool_decide_eq_true_2 by done.
      rewrite csv_writerow_run. apply IH.
    + unfold getitem. rewrite Hc.
      destruct (_get_company_research_run (PStr c) w) as (text & w1 & -> & _).
      rewrite (dict_to_list_research _ _ Hdom), csv_writerow_run. apply IH.
Qed.

(** [remove_duplicates] on a store of well-formed records that can be
    rewritten: the file holds the header and one row for each entry of
    [unique_apps], in order. *)
Lemma remove_duplicates_rewrites (w : world) :
  csv_can_write w = true ->
  Forall well_formed (stored w) ->
  stored w ≠ [] ->
  exists u inv w' rows,
    collect_unique (stored w) [] [] = Ok (u, inv) /\
    remove_duplicates w = (Ok true, w') /\
    csv w' = Some (fieldnames :: rows) /\
    Forall2 written u.*2 rows.
Proof.
  intros Hcw Hwf Hne.
  destruct (collect_unique_total _ Hwf [] []) as (u & inv & Hcol).
  assert (Hbs : Forall (fun b => dom b ⊆ field_keys /\ valid b) u.*2).
  { apply Forall_fmap, Forall_forall. intros [k' b] Hb. simpl. split.
    - destruct (collect_unique_from _ _ _ _ _ _ _ Hcol Hb) as [Hnil|Hin'];
        [by apply elem_of_nil in Hnil|].
      eapply Forall_forall in Hwf; [|exact Hin']. apply Hwf.
    - destruct (collect_unique_entries_start _ _ _ Hcol)
        as [_ Hok].
      eapply Forall_forall in Hok; [|exact Hb]. apply Hok. }
  set (w0 := set_csv (Some [fieldnames]) (set_csv (Some []) w)).
  destruct (write_unique_total _ Hbs w0) as (w' & Hwrite).
  destruct (write_unique_rows _ _ _ _ Hwrite eq_refl)
    as (rows & Hrows & Hall & Hlen & _ & _ & Hsome).
  exists u, inv, w', rows. split; [done|].
  rewrite (Hlen eq_refl), firstn_all in Hall.
  split; [|split; [|done]].
  - unfold remove_duplicates, remove_duplicates_body. run.
    rewrite get_all_applications_stored.
    destruct (stored w) as [|x xs] eqn:E; [done|].
    rewrite Hcol. unfold open_csv_w. rewrite Hcw, writeheader_fresh.
    fold w0. by rewrite Hwrite.
  - destruct Hsome as [table Htable]; [by eexists|].
    rewrite Htable. f_equal. revert Hrows. unfold store_rows. by rewrite Htable.
Qed.


End Dedup.

(** * Running the deduplication again *)

Section Idempotence.
Context `{Python} `{Collaborator}.

(** A list of valid records with pairwise different keys, none of them in
    [unique_apps] yet, is taken over as it is. *)
Lemma collect_unique_fresh (l : list ((string * string) * dict)) :
  forall u inv,
    Forall entry_ok l -> NoDup (u.*1 ++ l.*1) ->
    collect_unique l.*2 u inv = Ok (u ++ l, inv).
Proof.
  induction l as [|[k b] l IH]; intros u inv Hok Hnd; simpl.
  - by rewrite app_nil_r.
  - apply Forall_cons in Hok as [[Hv Hk] Hok]. simpl in Hv, Hk.
    change (collect_unique (b :: l.*2) u inv = Ok (u ++ (k, b) :: l, inv)).
    rewrite (collect_unique_valid _ _ _ _ _ Hv Hk).
    rewrite odict_set_fresh.
    + rewrite IH; [by rewrite <- app_assoc|done|].
      by rewrite fmap_app, <- app_assoc.
    + apply NoDup_app in Hnd as (_ & Hnd & _). intros Hin.
      apply (Hnd _ Hin). apply list_elem_of_here.
Qed.

(** A row that was written, read back: the same key, still valid, and
    written again as the same row. *)
Lemma written_reread (k : string * string) (b : dict) (row : list string) :
  entry_ok (k, b) -> written b row ->
  entry_ok (k, read_row fieldnames row) /\
  contains (read_row fieldnames row) "research" = true /\
  dict_to_list (read_row fieldnames row) = Ok row.
Proof.
  intros [Hv Hid] [_ (text & -> & _)]. simpl in Hv, Hid.
  apply identity_Some in Hid as (t & c & Ht & Hc & ->).
  destruct Hv as (c' & Hc' & Hnb). rewrite Hc in Hc'. injection Hc' as <-.
  unfold row_of, dict_get. rewrite Ht, Hc. simpl.
  split; [split|split].
  - exists c. split; [reflexivity|done].
  - reflexivity.
  - reflexivity.
  - reflexivity.
Qed.

(** The second loop on rows read back writes the same rows. *)
Lemma write_unique_reread (bs : list dict) (rows : list (list string)) :
  Forall2 (fun b row => contains b "research" = true /\ dict_to_list b = Ok row)
    bs rows ->
  forall w, csv_tail w = "" -> exists w',
    write_unique bs w = (Ok tt, w') /\
    store_rows w' = store_rows w ++ rows /\
    (is_Some (csv w) -> is_Some (csv w')).
Proof.
  induction 1 as [|b row bs rows [Hres Hrow] _ IH]; intros w Htail.
  - exists w. by rewrite app_nil_r.
  - cbn [write_unique]. run. rewrite Hres. simpl.
    unfold writerow. run. rewrite Hrow, csv_writerow_complete by done.
    match goal with |- context [write_unique bs ?w1] =>
      destruct (IH w1 eq_refl) as (w' & Hrun & Hrows & Hsome) end.
    exists w'. split; [done|]. split.
    + rewrite Hrows. change (store_rows (set_csv _ w)) with (store_rows w ++ [row]).
      by rewrite <- app_assoc.
    + intros _. apply Hsome. by eexists.
Qed.

Lemma reread_entries (u : list ((string * string) * dict))
    (rows : list (list string)) :
  Forall entry_ok u -> Forall2 written u.*2 rows ->
  exists l,
    l.*1 = u.*1 /\ l.*2 = read_row fieldnames <$> rows /\
    Forall entry_ok l /\
    Forall2 (fun b row => contains b "research" = true /\ dict_to_list b = Ok row)
      l.*2 rows /\
    filter (fun r => r ≠ []) rows = rows.
Proof.
  revert rows. induction u as [|[k b] u IH]; intros rows Hok Hall; simpl in *.
  - apply Forall2_nil_inv_l in Hall as ->. exists []. by repeat split.
  - apply Forall2_cons_inv_l in Hall as (row & rows' & Hw & Hall & ->).
    apply Forall_cons in Hok as [Hb Hok].
    destruct (IH rows' Hok Hall) as (l & Hl1 & Hl2 & Hlok & Hlw & Hf).
    destruct (written_reread k b row Hb Hw) as (Hrb & Hres & Hrow).
    exists ((k, read_row fieldnames row) :: l). rewrite !fmap_cons, Hl1, Hl2.
    repeat split; try done.
    + by constructor.
    + rewrite <- Hl2. by constructor.
    + rewrite filter_cons_True, Hf; [done|].
      destruct Hw as [_ (text & -> & _)]. done.
Qed.

(** How [remove_duplicates] ends: it leaves the world as it is, and then
    it returned [True] only on an empty listing; or it has rewritten the
    file with rows for a prefix of [unique_apps]. *)
Lemma remove_duplicates_cases (w : world) r w1 :
  remove_duplicates w = (r, w1) ->
  (w1 = w /\ (r = Ok true -> stored w = [])) \/
  (exists u rows,
     NoDup u.*1 /\ Forall entry_ok u /\
     Forall2 written (take (length rows) u.*2) rows /\
     csv w1 = Some (fieldnames :: rows) /\ csv_can_write w1 = true /\
     csv_tail w1 = "").
Proof.
  unfold remove_duplicates, remove_duplicates_body. run.
  rewrite get_all_applications_stored.
  destruct (stored w) as [|x xs] eqn:Hst; [intros [= <- <-]; by left|].
  destruct (collect_unique (x :: xs) [] []) as [[u inv]|e] eqn:Hcol;
    [|intros [= <- <-]; by left].
  unfold open_csv_w.
  destruct (csv_can_write w) eqn:Hcw; [|intros [= <- <-]; by left].
  rewrite writeheader_fresh.
  destruct (write_unique _ _) as [r0 w'] eqn:Hwrite. intros Hr.
  assert (w1 = w') as -> by (destruct r0; by injection Hr).
  right. destruct (write_unique_rows _ _ _ _ Hwrite eq_refl)
    as (rows & Hrows & Hall & _ & _ & Hcw' & Hsome).
  destruct (collect_unique_entries_start _ _ _ Hcol) as [Hnd Hok].
  exists u, rows. repeat split; try done.
  - destruct Hsome as [table Htable]; [by eexists|].
    rewrite Htable. f_equal. revert Hrows. unfold store_rows. by rewrite Htable.
  - by rewrite Hcw'.
  - by apply (write_unique_tail _ _ _ _ Hwrite).
Qed.

(** On a file that [remove_duplicates] has rewritten, it finds no invalid
    record and no duplicate, and writes the same file. *)
Lemma remove_duplicates_fixed (w : world) (u : list ((string * string) * dict))
    (rows : list (list string)) :
  NoDup u.*1 -> Forall entry_ok u ->
  Forall2 written (take (length rows) u.*2) rows ->
  csv w = Some (fieldnames :: rows) -> csv_can_write w = true ->
  exists w' u',
    remove_duplicates w = (Ok true, w') /\ csv w' = csv w /\
    collect_unique (stored w) [] [] = Ok (u', []) /\
    length u' = length (stored w) /\
    (csv_tail w = "" -> csv_tail w' = "").
Proof.
  intros Hnd Hok Hall Hcsv Hcw.
  rewrite <- fmap_take in Hall.
  destruct (reread_entries (take (length rows) u) rows)
    as (l & Hl1 & Hl2 & Hlok & Hlw & Hf); [by apply Forall_take|done|].
  assert (Hidle : stored w = [] ->
    exists w' u', remove_duplicates w = (Ok true, w') /\ csv w' = csv w /\
      collect_unique (stored w) [] [] = Ok (u', []) /\
      length u' = length (stored w) /\
      (csv_tail w = "" -> csv_tail w' = "")).
  { intros Hnil. exists w, []. rewrite Hnil. repeat split; try done.
    unfold remove_duplicates, remove_duplicates_body. run.
    by rewrite get_all_applications_stored, Hnil. }
  assert (Hst : stored w = if csv_can_read w then l.*2 else []).
  { unfold stored. rewrite Hcsv. simpl. by rewrite Hf, Hl2. }
  destruct (csv_can_read w); [|by apply Hidle].
  destruct (decide (l = [])) as [->|Hne]; [by apply Hidle|].
  assert (Hcol : collect_unique (stored w) [] [] = Ok (l, [])).
  { rewrite Hst. apply (collect_unique_fresh l [] []); [done|]. simpl.
    rewrite Hl1, fmap_take. eapply sublist_NoDup; [done|apply sublist_take]. }
  set (w0 := set_csv (Some [fieldnames]) (set_csv (Some []) w)).
  destruct (write_unique_reread _ _ Hlw w0 eq_refl) as (w' & Hrun & Hrows & Hsome).
  exists w', l. repeat split; try done.
  - unfold remove_duplicates, remove_duplicates_body. run.
    rewrite get_all_applications_stored, Hcol. rewrite Hst.
    destruct l.*2 as [|b bs] eqn:El; [by destruct l|].
    unfold open_csv_w. rewrite Hcw, writeheader_fresh.
    fold w0. by rewrite Hrun.
  - destruct Hsome as [table Htable]; [by eexists|].
    rewrite Htable, Hcsv. f_equal. revert Hrows. unfold store_rows. by rewrite Htable.
  - by rewrite Hst, length_fmap.
  - intros _. by apply (write_unique_tail _ _ _ _ Hrun).
Qed.

(** C3. Running [remove_duplicates] a second time leaves the store file
    as the first run left it, its rows and its last line; and after a
    first run that returned [True] the second run returns [True], drops no
    invalid record and merges no duplicate: its [unique_apps] has one
    entry for each record listed. *)
Theorem dedup_idempotent (w : world) r1 w1 r2 w2 :
  remove_duplicates w = (r1, w1) ->
  remove_duplicates w1 = (r2, w2) ->
  (csv w2 = csv w1 /\ csv_tail w2 = csv_tail w1) /\
  (r1 = Ok true ->
   r2 = Ok true /\
   exists u, collect_unique (stored w1) [] [] = Ok (u, []) /\
             length u = length (stored w1)).
Proof.
  intros Hrun1 Hrun2.
  destruct (remove_duplicates_cases _ _ _ Hrun1)
    as [[-> Hnil]|(u & rows & Hnd & Hok & Hall & Hcsv & Hcw & Htail)].
  - rewrite Hrun1 in Hrun2. injection Hrun2 as <- <-. split; [done|].
    intros Htrue. split; [done|]. rewrite (Hnil Htrue). by exists [].
  - destruct (remove_duplicates_fixed w1 u rows Hnd Hok Hall Hcsv Hcw)
      as (w' & u' & Hrun & Hsame & Hcol & Hlen & Htail').
    rewrite Hrun in Hrun2. injection Hrun2 as <- <-.
    split; [split; [done|by rewrite Htail' by done]|].
    intros _. split; [done|]. by exists u'.
Qed.

End Idempotence.

(** * More on saving a record *)

Section SaveMore.
Context `{Python} `{Collaborator}.

(** X1. A candidate that lacks one of the four required fields is rejected:
    [save_to_csv] returns [False] and the world is as before. *)
Theorem save_missing_field_rejected (data : dict) (w : world) (field : string) :
  field ∈ required_fields ->
  data !! Some field = None ->
  save_to_csv data w = (Ok false, w).
Proof.
  intros Hin Hnone. unfold save_to_csv, save_to_csv_body.
  replace (forallb (contains data) required_fields) with false; [by run|].
  symmetry. apply not_true_is_false. intros Hall.
  rewrite forallb_forall in Hall. apply list_elem_of_In, Hall in Hin.
  unfold contains in Hin. apply bool_decide_eq_true in Hin as [v Hv]. congruence.
Qed.

Lemma find_duplicate_none (data : dict) (apps : list dict) (k : string * string) :
  identity data = Some k ->
  Forall (fun a => is_Some (identity a)) apps ->
  find_duplicate data apps = Ok (bool_decide (Some k ∈ identity <$> apps)).
Proof.
  intros Hk. induction 1 as [|a apps [k' Ha] _ IH].
  - reflexivity.
  - rewrite (find_duplicate_cons _ _ _ _ _ Hk Ha), IH, fmap_cons, Ha.
    destruct (decide (k' = k)) as [->|Hkk].
    + rewrite (bool_decide_eq_true_2 (k = k)) by done.
      by rewrite bool_decide_eq_true_2 by apply list_elem_of_here.
    + rewrite (bool_decide_eq_false_2 (k' = k)) by done.
      f_equal. apply bool_decide_ext. rewrite elem_of_cons. split; [by right|].
      intros [[= ->]|?]; done.
Qed.

(** X2. On a store whose records all have a title and a company,
    [_is_duplicate] answers [True] exactly when a stored record has the
    identity key of the candidate; it changes nothing. *)
Theorem is_duplicate_exact (data : dict) (w : world) (k : string * string) :
  identity data = Some k ->
  Forall (fun a => is_Some (identity a)) (stored w) ->
  _is_duplicate data w = (Ok (bool_decide (Some k ∈ identity <$> stored w)), w).
Proof.
  intros Hk Hall. rewrite _is_duplicate_run.
  by rewrite (find_duplicate_none _ _ _ Hk Hall).
Qed.



Lemma five_cells (row : list string) :
  length row = 5 -> exists t c s d x, row = [t; c; s; d; x].
Proof.
  destruct row as [|t [|c [|s [|d [|x [|]]]]]]; try done. by eexists _, _, _, _, _.
Qed.






End SaveMore.

(** * More on the research cache and the constructor *)

Section ResearchMore.
Context `{Python} `{Collaborator}.

(** X6. The constructor leaves an existing store file alone, gives a missing
    one the header row and nothing else, and creating the tracker again
    changes nothing. *)
Theorem constructor_creates_header_once (w w1 : world) :
  JobApplicationTracker w = (Ok tt, w1) ->
  (is_Some (csv w) -> w1 = w) /\
  (csv w = None -> csv w1 = Some [fieldnames] /\ stored w1 = []) /\
  JobApplicationTracker w1 = (Ok tt, w1).
Proof.
  unfold JobApplicationTracker, _ensure_files_exist, csv_exists, open_csv_w,
    writeheader, csv_writerow. run.
  destruct (csv w) as [table|] eqn:Hcsv.
  - rewrite bool_decide_eq_true_2 by (by eexists). intros [= <-].
    repeat split; try done.
    by rewrite Hcsv, bool_decide_eq_true_2 by (by eexists).
  - rewrite bool_decide_eq_false_2 by (by intros [? [=]]).
    destruct (csv_can_write w); [|done]. intros [= <-].
    split; [by intros [? [=]]|]. split; [|done].
    intros _. split; [done|]. unfold stored. simpl. by destruct (csv_can_read w).
Qed.

(** A lookup that finds no file and gets a text from the language model. *)
Lemma research_miss_run (name : string) (w : world) (text : string) :
  ~ blank_text name ->
  research w !! research_file name = None ->
  has_text (generate_company_research (gen_log w) name) = Some text ->
  research_file name ∉ unwritable w ->
  _get_company_research (PStr name) w =
    (Ok text,
     set_research (<[research_file name := note_text name (now w) text]> (research w))
       (set_gen_log (gen_log w ++ [name])
          (set_lookups (lookups w ++ [research_file name]) w))).
Proof.
  intros Hnb Hnone Htext Hwr.
  unfold _get_company_research, _get_company_research_body. run.
  rewrite is_blank_text. rewrite bool_decide_eq_false_2 by done.
  unfold path_exists. rewrite Hnone.
  rewrite bool_decide_eq_false_2 by (by intros [? [=]]).
  unfold call_model.
  change (gen_log (set_lookups _ w)) with (gen_log w). rewrite Htext.
  unfold get_now, write_note.
  change (unwritable (set_gen_log _ (set_lookups _ w))) with (unwritable w).
  by rewrite bool_decide_eq_false_2 by done.
Qed.

(** A lookup that finds a readable file of more than three lines. *)
Lemma research_hit_run (name : string) (w : world) (text : string) :
  ~ blank_text name ->
  research w !! research_file name = Some text ->
  research_file name ∉ unreadable w ->
  3 < length (readlines text) ->
  _get_company_research (PStr name) w =
    (Ok (note_body text), set_lookups (lookups w ++ [research_file name]) w).
Proof.
  intros Hnb Hfile Hread Hlen.
  unfold _get_company_research, _get_company_research_body. run.
  rewrite is_blank_text. rewrite bool_decide_eq_false_2 by done.
  unfold path_exists, read_note.
  rewrite bool_decide_eq_true_2 by (by eexists).
  change (research (set_lookups _ w)) with (research w).
  change (unreadable (set_lookups _ w)) with (unreadable w).
  rewrite Hfile. rewrite bool_decide_eq_false_2 by done.
  by rewrite decide_True by done.
Qed.

(** X7. A first lookup of a company without research file for which the
    language model gives a text: the text is returned and the note is
    written under the file of the company; the model is called once. *)
Theorem research_generated_and_written (name : string) (w : world) (text : string) :
  ~ blank_text name ->
  research w !! research_file name = None ->
  has_text (generate_company_research (gen_log w) name) = Some text ->
  research_file name ∉ unwritable w ->
  exists w1,
    _get_company_research (PStr name) w = (Ok text, w1) /\
    research w1 = <[research_file name := note_text name (now w) text]> (research w) /\
    gen_log w1 = gen_log w ++ [name] /\
    lookups w1 = lookups w ++ [research_file name].
Proof.
  intros Hnb Hnone Htext Hwr. eexists. split; [by apply research_miss_run|done].
Qed.

(** X8. When the language model gives no text nothing is cached: the lookup
    returns the empty string and the research directory is as before. *)
Theorem failed_generation_not_cached (name : string) (w : world) :
  ~ blank_text name ->
  research w !! research_file name = None ->
  has_text (generate_company_research (gen_log w) name) = None ->
  exists w1,
    _get_company_research (PStr name) w = (Ok "", w1) /\
    research w1 = research w /\
    gen_log w1 = gen_log w ++ [name].
Proof.
  intros Hnb Hnone Htext.
  unfold _get_company_research, _get_company_research_body. run.
  rewrite is_blank_text. rewrite bool_decide_eq_false_2 by done.
  unfold path_exists. rewrite Hnone.
  rewrite bool_decide_eq_false_2 by (by intros [? [=]]).
  unfold call_model.
  change (gen_log (set_lookups _ w)) with (gen_log w). rewrite Htext.
  eexists. split; [reflexivity|]. done.
Qed.

(** X9. A research file that exists and cannot be read: the lookup returns
    the empty string, the language model is not called and no file is
    written. *)
Theorem unreadable_note_gives_nothing (name : string) (w : world) :
  ~ blank_text name ->
  is_Some (research w !! research_file name) ->
  research_file name ∈ unreadable w ->
  _get_company_research (PStr name) w
    = (Ok "", set_lookups (lookups w ++ [research_file name]) w).
Proof.
  intros Hnb [text Hfile] Hlocked.
  unfold _get_company_research, _get_company_research_body. run.
  rewrite is_blank_text. rewrite bool_decide_eq_false_2 by done.
  unfold path_exists, read_note.
  rewrite bool_decide_eq_true_2 by (by eexists).
  change (research (set_lookups _ w)) with (research w).
  change (unreadable (set_lookups _ w)) with (unreadable w).
  rewrite Hfile. by rewrite bool_decide_eq_true_2 by done.
Qed.

End ResearchMore.

(** * Reading a note back *)

Section Readlines.

Lemma string_app_cons (x : ascii) (a b : string) :
  String x a +:+ b = String x (a +:+ b).
Proof. reflexivity. Qed.

Lemma string_app_nil_l (a : string) : "" +:+ a = a.
Proof. reflexivity. Qed.

Lemma string_app_assoc (a b c : string) : (a +:+ b) +:+ c = a +:+ (b +:+ c).
Proof.
  induction a as [|x a IH]; [done|]. rewrite !string_app_cons. by f_equal.
Qed.

Lemma string_app_nil_r (a : string) : a +:+ "" = a.
Proof.
  induction a as [|x a IH]; [done|]. rewrite string_app_cons. by f_equal.
Qed.

Lemma string_app_not_nil (a : string) (x : ascii) : a +:+ String x "" ≠ "".
Proof. by destruct a. Qed.

Lemma free_of_app (chars : list ascii) (a b : string) :
  free_of chars a -> free_of chars b -> free_of chars (a +:+ b).
Proof.
  induction a as [|x a IH]; [done|]. rewrite string_app_cons. simpl.
  intros [? ?] ?. auto.
Qed.

(** A first line without line break, closed by a line feed. *)
Lemma readlines_from_line (a rest : string) :
  one_line a ->
  forall cur,
    readlines_from false cur (a +:+ String LF rest)
    = (cur +:+ a +:+ nl) :: readlines_from false "" rest.
Proof.
  induction a as [|x a IH]; intros Hone cur.
  - rewrite !string_app_nil_l. reflexivity.
  - destruct Hone as [Hx Ha]. rewrite !string_app_cons. cbn [readlines_from].
    rewrite (bool_decide_eq_false_2 (x = LF)) by (intros ->; apply Hx; apply (bool_decide_unpack _); by vm_compute).
    rewrite (bool_decide_eq_false_2 (x = CR)) by (intros ->; apply Hx; apply (bool_decide_unpack _); by vm_compute).
    rewrite (IH Ha). by rewrite string_app_assoc, string_app_cons.
Qed.

Lemma readlines_from_nonempty (s : string) :
  forall after_cr cur,
    cur ≠ "" \/ (s ≠ "" /\ after_cr = false) ->
    readlines_from after_cr cur s ≠ [].
Proof.
  induction s as [|x s IH]; intros after_cr cur Hne; simpl.
  - destruct Hne as [Hcur|[? _]]; [|done]. by rewrite bool_decide_eq_false_2.
  - case_bool_decide.
    + destruct after_cr; [|done]. apply IH. by destruct Hne as [?|[_ ?]]; [left|].
    + case_bool_decide; [done|]. apply IH. left. apply string_app_not_nil.
Qed.

Lemma concat_cons (h : string) (t : list string) :
  String.concat "" (h :: t) = h +:+ String.concat "" t.
Proof. destruct t; simpl; [by rewrite string_app_nil_r|done]. Qed.

(** Without carriage returns the lines of a text put together are the
    text. *)
Lemma concat_readlines_from (s : string) :
  free_of [CR] s ->
  forall cur, String.concat "" (readlines_from false cur s) = cur +:+ s.
Proof.
  induction s as [|x s IH]; intros Hfree cur.
  - simpl. case_bool_decide; subst; [done|]. simpl. by rewrite string_app_nil_r.
  - destruct Hfree as [Hx Hs]. cbn [readlines_from].
    case_bool_decide as Hlf.
    + subst. rewrite concat_cons, (IH Hs). unfold nl.
      by rewrite string_app_nil_l, string_app_assoc.
    + rewrite (bool_decide_eq_false_2 (x = CR)) by (intros ->; apply Hx; apply (bool_decide_unpack _); by vm_compute).
      rewrite (IH Hs). by rewrite string_app_assoc.
Qed.

(** The lines of a note: two header lines, an empty line, and the lines
    of the body. *)
Lemma readlines_note_text (name stamp body : string) :
  one_line name -> one_line stamp ->
  exists l1 l2 l3,
    readlines (note_text name stamp body) = l1 :: l2 :: l3 :: readlines body.
Proof.
  intros Hname Hstamp. unfold readlines, note_text.
  change (nl +:+ "Date Generated: " +:+ stamp +:+ nl +:+ nl +:+ body)
    with (String LF ("Date Generated: " +:+ stamp +:+ String LF (String LF body))).
  rewrite <- (string_app_assoc "Company Research for " name).
  rewrite readlines_from_line.
  2:{ apply free_of_app; [|done].
      repeat (split; [apply (bool_decide_unpack _); by vm_compute|]). exact I. }
  rewrite <- (string_app_assoc "Date Generated: " stamp).
  rewrite readlines_from_line.
  2:{ apply free_of_app; [|done].
      repeat (split; [apply (bool_decide_unpack _); by vm_compute|]). exact I. }
  rewrite <- (string_app_nil_l (String LF body)).
  rewrite (readlines_from_line "" body I "").
  by eexists _, _, _.
Qed.

End Readlines.

Section CacheRoundTrip.
Context `{Python} `{Collaborator}.

Lemma has_text_Some (r : option string) (text : string) :
  has_text r = Some text -> r = Some text /\ text ≠ "".
Proof.
  destruct r as [t|]; simpl; [|done]. case_bool_decide; [done|]. by intros [= <-].
Qed.

(** X10. The cache round trip. After a lookup that generated a note for a
    company whose name has no line break, the next lookup returns the
    text from the file, its lines put together and stripped, and does not
    call the language model again; a text without carriage return comes
    back as it was, stripped. *)
Theorem generated_research_is_cached (name : string) (w : world) (text : string) :
  ~ blank_text name ->
  research w !! research_file name = None ->
  has_text (generate_company_research (gen_log w) name) = Some text ->
  research_file name ∉ unwritable w ->
  research_file name ∉ unreadable w ->
  one_line name -> one_line (now w) ->
  exists w1 w2,
    _get_company_research (PStr name) w = (Ok text, w1) /\
    _get_company_research (PStr name) w1
      = (Ok (strip (String.concat "" (readlines text))), w2) /\
    gen_log w2 = gen_log w ++ [name] /\
    research w2 = research w1 /\
    (free_of [CR] text -> String.concat "" (readlines text) = text).
Proof.
  intros Hnb Hnone Htext Hwr Hrd Hname Hstamp.
  eexists _, _. split; [by apply research_miss_run|].
  destruct (readlines_note_text name (now w) text Hname Hstamp)
    as (l1 & l2 & l3 & Hlines).
  split.
  - rewrite (research_hit_run name _ (note_text name (now w) text)); try done.
    + unfold note_body. rewrite Hlines. reflexivity.
    + apply lookup_insert_eq.
    + rewrite Hlines. simpl.
      apply has_text_Some in Htext as [_ Hne].
      pose proof (readlines_from_nonempty text false "" (or_intror (conj Hne eq_refl))).
      unfold readlines. destruct (readlines_from false "" text); [done|simpl; lia].
  - repeat split; try done.
    intros Hcr. unfold readlines. by rewrite concat_readlines_from.
Qed.

End CacheRoundTrip.

(** * The file name of a note *)

Section FileName.

Lemma free_of_replace_old (old new : ascii) (s : string) :
  old ≠ new -> free_of [old] (replace old new s).
Proof.
  intros Hne. induction s as [|x s IH]; simpl; [done|]. split; [|done].
  rewrite list_elem_of_singleton. case_bool_decide; congruence.
Qed.

Lemma free_of_replace_keep (x old new : ascii) (s : string) :
  x ≠ new -> free_of [x] s -> free_of [x] (replace old new s).
Proof.
  intros Hne. induction s as [|y s IH]; simpl; [done|]. intros [Hy Hs].
  split; [|by apply IH]. rewrite list_elem_of_singleton in *.
  case_bool_decide; congruence.
Qed.

Lemma free_of_two (a b : ascii) (s : string) :
  free_of [a] s -> free_of [b] s -> free_of [a; b] s.
Proof.
  induction s as [|y s IH]; simpl; [done|]. intros [Ha Hs] [Hb Hs'].
  split; [|by apply IH]. rewrite list_elem_of_singleton in *.
  intros [->|[->|Hin]%elem_of_cons]%elem_of_cons; try done.
  by apply elem_of_nil in Hin.
Qed.

(** X11. The file name made from a company name holds neither a slash nor a
    backslash, whatever the name. *)
Theorem research_file_no_separator (company : string) :
  free_of ["/"%char; "092"%char] (research_file company).
Proof.
  unfold research_file. apply free_of_app.
  - apply free_of_two.
    + apply free_of_replace_keep; [done|]. by apply free_of_replace_old.
    + by apply free_of_replace_old.
  - repeat (split; [apply (bool_decide_unpack _); by vm_compute|]). exact I.
Qed.

End FileName.

(** * More on deduplication *)

Section DedupMore.
Context `{Python} `{Collaborator}.

Lemma odict_set_length {K V} `{EqDecision K} (k : K) (v : V) (d : list (K * V)) :
  length d <= length (odict_set k v d) <= S (length d).
Proof.
  induction d as [|[k' v'] d IH]; simpl; [lia|]. case_decide; simpl; lia.
Qed.

Lemma odict_set_pos {K V} `{EqDecision K} (k : K) (v : V) (d : list (K * V)) :
  0 < length (odict_set k v d).
Proof. destruct d as [|[k' v'] d]; simpl; [lia|]. case_decide; simpl; lia. Qed.

Lemma collect_unique_length (apps : list dict) :
  forall u inv u' inv',
    collect_unique apps u inv = Ok (u', inv') ->
    length u <= length u' /\
    length u' + length inv' <= length u + length inv + length apps.
Proof.
  induction apps as [|a apps IH]; intros u inv u' inv'.
  - intros [= <- <-]. simpl. lia.
  - intros [[_ Hr]|(k & _ & Hr)]%collect_unique_step; apply IH in Hr; simpl.
    + rewrite length_app in Hr. simpl in Hr. lia.
    + pose proof (odict_set_length k a u). lia.
Qed.

(** X12. Deduplication invents nothing and keeps no invalid record: in a store
    of well-formed records that can be rewritten, every row of the new file
    is the row of a valid record that was listed, and there are no more
    rows than records before. *)
Theorem dedup_rows_from_valid_records (w : world) :
  csv_can_write w = true ->
  Forall well_formed (stored w) ->
  stored w ≠ [] ->
  exists w' rows,
    remove_duplicates w = (Ok true, w') /\
    csv w' = Some (fieldnames :: rows) /\
    Forall (fun row => exists a, a ∈ stored w /\ valid a /\ written a row) rows /\
    length rows <= length (stored w).
Proof.
  intros Hcw Hwf Hne.
  destruct (remove_duplicates_rewrites w Hcw Hwf Hne)
    as (u & inv & w' & rows & Hcol & Hrun & Hcsv & Hall).
  exists w', rows. split; [done|]. split; [done|].
  destruct (collect_unique_entries_start _ _ _ Hcol) as [_ Hok].
  split.
  - apply Forall_forall. intros row [i Hi]%list_elem_of_lookup.
    destruct (Forall2_lookup_r _ _ _ _ _ Hall Hi) as (b & Hb & Hw).
    apply list_lookup_fmap_Some in Hb as ([k b'] & -> & Hu). simpl in *.
    apply list_elem_of_lookup_2 in Hu.
    exists b'. split; [|split; [|done]].
    + by destruct (collect_unique_from _ _ _ _ _ _ _ Hcol Hu) as [?%elem_of_nil|?].
    + eapply Forall_forall in Hok; [|exact Hu]. apply Hok.
  - apply Forall2_length in Hall. rewrite length_fmap in Hall.
    apply collect_unique_length in Hcol. simpl in Hcol. lia.
Qed.

Lemma valid_key_entry (k : string * string) (a : dict) :
  entry_ok (k, a) -> valid_key a = Some k.
Proof.
  intros [(c & Hc & Hnb) Hid]. simpl in *. unfold valid_key. rewrite Hc.
  by rewrite bool_decide_eq_false_2.
Qed.

Lemma valid_key_invalid (a : dict) : ~ valid a -> valid_key a = None.
Proof.
  intros Hinv. unfold valid_key.
  destruct (a !! Some "company") as [[|c|]|] eqn:Hc; try done.
  case_bool_decide; [done|]. exfalso. apply Hinv. by exists c.
Qed.

(** The keys of [unique_apps] after the first loop: those it had, then
    the new keys of the valid records in the order in which they are first
    seen. *)
Lemma collect_unique_keys (apps : list dict) :
  forall u inv u' inv',
    collect_unique apps u inv = Ok (u', inv') ->
    u'.*1 = u.*1 ++ filter (fun k => k ∉ u.*1) (first_seen (omap valid_key apps)).
Proof.
  induction apps as [|a apps IH]; intros u inv u' inv'.
  - intros [= <- <-]. simpl. by rewrite app_nil_r.
  - intros [[Hinv Hr]|(k & Hk & Hr)]%collect_unique_step.
    + simpl. rewrite (valid_key_invalid _ Hinv). by eapply IH.
    + simpl. rewrite (valid_key_entry _ _ Hk). cbn [first_seen].
      rewrite (IH _ _ _ _ Hr).
      set (L := first_seen (omap valid_key apps)).
      destruct (decide (k ∈ u.*1)) as [Hin|Hout].
      * rewrite odict_set_keys_in by done. f_equal.
        rewrite filter_cons_False by (by intros ?).
        rewrite list_filter_filter. apply list_filter_iff.
        intros y. split; [|tauto]. intros Hy. split; [done|]. by intros ->.
      * rewrite odict_set_fresh by done. rewrite fmap_app, <- app_assoc. simpl.
        f_equal. rewrite filter_cons_True by done. f_equal.
        rewrite list_filter_filter. apply list_filter_iff.
        intros y. rewrite elem_of_app, list_elem_of_singleton. tauto.
Qed.

(** X13. The rows come in the order in which their keys are first seen: in a
    store of well-formed records that can be rewritten, the keys of the
    rows of the new file are the identity keys of the valid records, each
    once, in the order of their first occurrence. *)
Theorem dedup_keeps_first_seen_order (w : world) :
  csv_can_write w = true ->
  Forall well_formed (stored w) ->
  stored w ≠ [] ->
  exists w' rows,
    remove_duplicates w = (Ok true, w') /\
    csv w' = Some (fieldnames :: rows) /\
    row_identity <$> rows = Some <$> first_seen (omap valid_key (stored w)).
Proof.
  intros Hcw Hwf Hne.
  destruct (remove_duplicates_rewrites w Hcw Hwf Hne)
    as (u & inv & w' & rows & Hcol & Hrun & Hcsv & Hall).
  exists w', rows. split; [done|]. split; [done|].
  destruct (collect_unique_entries_start _ _ _ Hcol) as [_ Hok].
  rewrite (written_identities u rows Hok Hall). f_equal.
  rewrite (collect_unique_keys _ _ _ _ _ Hcol). simpl.
  induction (first_seen _) as [|k L IH]; [done|].
  rewrite filter_cons_True by (by intros ?%elem_of_nil). by f_equal.
Qed.

Lemma collect_unique_scannable (apps : list dict) :
  Forall scannable apps ->
  forall u inv, exists u' inv', collect_unique apps u inv = Ok (u', inv').
Proof.
  induction 1 as [|a apps ((t & Ht) & Hplain) _ IH]; intros u inv.
  - by eexists _, _.
  - destruct Hplain as [Hc|[c Hc]].
    { rewrite collect_unique_invalid; [apply IH|]. by rewrite Hc. }
    destruct (decide (c = "" \/ strip c = "")) as [Hb|Hnb].
    { rewrite collect_unique_invalid; [apply IH|]. rewrite Hc, is_blank_text.
      by rewrite bool_decide_eq_true_2. }
    assert (Hc' : a !! Some "company" = Some (PStr c)).
    { revert Hc. unfold dict_get.
      destruct (a !! Some "company"); simpl; [by intros ->|done]. }
    rewrite (collect_unique_valid a apps u inv (lower t, lower c)).
    + apply IH.
    + by exists c.
    + unfold identity. by rewrite Ht, Hc'.
Qed.

(** The csv writer refuses a valid record with a key beyond the field
    names, with or without research. *)
Lemma write_unique_refused (b : dict) (bs : list dict) (w : world) :
  valid b -> ~ dom b ⊆ field_keys ->
  exists w1, write_unique (b :: bs) w = (Raise ValueError, w1) /\ same_store w w1.
Proof.
  intros (c & Hc & _) Hdom. cbn [write_unique]. run.
  unfold writerow, csv_writerow. run.
  destruct (contains b "research"); simpl.
  - unfold dict_to_list. rewrite bool_decide_eq_false_2 by done.
    exists w. split; [done|apply same_store_refl].
  - unfold getitem. rewrite Hc.
    destruct (_get_company_research_run (PStr c) w) as (text & w1 & -> & Hst).
    unfold dict_to_list. rewrite bool_decide_eq_false_2; [by exists w1|].
    intros Hsub. apply Hdom. etrans; [|exact Hsub].
    rewrite dom_insert_L. apply union_subseteq_r.
Qed.

(** X14. A store whose records carry a key beyond the five field names, as
    with a sixth column in the header, is emptied: when its records can be
    looked at and one of them is valid, [remove_duplicates] truncates the
    file, writes the header, is refused the first row by the csv writer
    and returns [False]; the file is left with the header alone. *)
Theorem extra_key_empties_store (w : world) :
  csv_can_write w = true ->
  Forall scannable (stored w) ->
  Forall (fun a => ~ dom a ⊆ field_keys) (stored w) ->
  Exists valid (stored w) ->
  exists w',
    remove_duplicates w = (Ok false, w') /\ csv w' = Some [fieldnames].
Proof.
  intros Hcw Hscan Hextra Hvalid.
  destruct (collect_unique_scannable _ Hscan [] []) as (u & inv & Hcol).
  destruct (collect_unique_entries_start _ _ _ Hcol) as [_ Hok].
  assert (Hne : u ≠ []).
  { apply Exists_exists in Hvalid as (a & Hin & Hv).
    apply list_elem_of_split in Hin as (pre & post & Hsplit).
    pose proof Hcol as Hcol'. rewrite Hsplit, collect_unique_app in Hcol'.
    destruct (collect_unique pre [] []) as [[u1 inv1]|] eqn:E1; [|done].
    apply collect_unique_step in Hcol' as [[Hinv _]|(k & _ & Hr)]; [done|].
    apply collect_unique_length in Hr as [Hlen _].
    pose proof (odict_set_pos k a u1). intros ->. simpl in Hlen. lia. }
  destruct u as [|[k b] u]; [done|].
  apply Forall_cons in Hok as [[Hv _] _]. simpl in Hv.
  assert (Hb : b ∈ stored w).
  { by destruct (collect_unique_from _ _ _ _ _ k b Hcol (list_elem_of_here _ _))
      as [?%elem_of_nil|?]. }
  eapply Forall_forall in Hextra; [|exact Hb].
  set (w0 := set_csv (Some [fieldnames]) (set_csv (Some []) w)).
  destruct (write_unique_refused b u.*2 w0 Hv Hextra) as (w1 & Hwrite & Hcsv & _).
  exists w1. split; [|by rewrite Hcsv].
  unfold remove_duplicates, remove_duplicates_body. run.
  rewrite get_all_applications_stored.
  destruct (stored w) as [|x xs] eqn:E; [by apply elem_of_nil in Hb|].
  rewrite Hcol. unfold open_csv_w. rewrite Hcw, writeheader_fresh. fold w0.
  rewrite fmap_cons. cbn [snd]. by rewrite Hwrite.
Qed.

(** The rows of a store in the five-column layout, as entries of
    [unique_apps] and as what is written for them. *)
Lemma five_column_entries (rows : list (list string)) :
  Forall (fun row => length row = 5) rows ->
  Forall (fun row => valid (read_row fieldnames row)) rows ->
  exists l : list ((string * string) * dict),
    Some <$> l.*1 = row_identity <$> rows /\
    Forall entry_ok l /\
    Forall2 written l.*2 rows.
Proof.
  induction 1 as [|row rows Hrow _ IH]; intros Hvalid.
  - exists []. by repeat split; constructor.
  - apply Forall_cons in Hvalid as [Hv Hvalid].
    destruct (IH Hvalid) as (l & Hkeys & Hok & Hw).
    destruct (five_cells _ Hrow) as (t & c & s & d & x & ->).
    exists (((lower t, lower c), read_row fieldnames [t; c; s; d; x]) :: l).
    rewrite !fmap_cons, Hkeys. split; [done|]. split.
    + constructor; [by split|done].
    + constructor; [|done]. split.
      * apply (bool_decide_unpack _). by vm_compute.
      * exists x. split; [reflexivity|]. by intros v [= <-].
Qed.

(** X15. A store in the five-column layout whose rows are valid and have
    pairwise different identity keys is a fixed point: [remove_duplicates]
    returns [True] and writes the rows of the file as they were; a file
    that ended with a line break ends with one. *)
Theorem dedup_fixed_point (w : world) (rows : list (list string)) :
  five_column_store w rows ->
  Forall (fun row => valid (read_row fieldnames row)) rows ->
  NoDup (row_identity <$> rows) ->
  exists w',
    remove_duplicates w = (Ok true, w') /\ csv w' = csv w /\
    (csv_tail w = "" -> csv_tail w' = csv_tail w).
Proof.
  intros (Hcsv & _ & Hcw & Hfive) Hvalid Hnd.
  destruct (five_column_entries rows Hfive Hvalid) as (l & Hkeys & Hok & Hw).
  destruct (remove_duplicates_fixed w l rows)
    as (w' & _ & Hrun & Hsame & _ & _ & Htail); try done.
  - rewrite <- Hkeys in Hnd. by apply NoDup_fmap_1 in Hnd.
  - apply Forall2_length in Hw as Hlen. by rewrite <- Hlen, firstn_all.
  - exists w'. split; [done|]. split; [done|].
    intros Hcomplete. rewrite Hcomplete. by apply Htail.
Qed.

End DedupMore.

(** ** [is_today] *)

Section Today.
Context `{Python} `{Calendar}.
Variable today : date.

Lemma starts_with_spec (a b : string) :
  starts_with a b = true <-> exists y, b = a +:+ y.
Proof.
  revert b. induction a as [|x a IH]; intros b; simpl.
  - split; [intros _; by exists b|done].
  - destruct b as [|y b].
    + split; [done|]. intros [z Hz]. by rewrite string_app_cons in Hz.
    + rewrite andb_true_iff, bool_decide_eq_true, IH. split.
      * intros [-> [z ->]]. exists z. by rewrite string_app_cons.
      * intros [z Hz]. rewrite string_app_cons in Hz.
        injection Hz as -> ->. split; [done|by exists z].
Qed.

Lemma str_in_spec (a b : string) :
  str_in a b = true <-> exists x y, b = x +:+ (a +:+ y).
Proof.
  induction b as [|c b IH].
  - cbn [str_in]. rewrite orb_false_r, starts_with_spec. split.
    + intros [y Hy]. by exists "", y.
    + intros (x & y & Hxy). destruct x as [|c x].
      * by exists y.
      * by rewrite string_app_cons in Hxy.
  - cbn [str_in]. rewrite orb_true_iff, starts_with_spec, IH. split.
    + intros [[y Hy]|(x & y & ->)].
      * by exists "", y.
      * exists (String c x), y. by rewrite string_app_cons.
    + intros (x & y & Hxy). destruct x as [|c' x].
      * left. by exists y.
      * right. rewrite string_app_cons in Hxy. injection Hxy as -> ->.
        by exists x, y.
Qed.

(** A part of a part is a part. *)
Lemma str_in_trans (a b c : string) :
  str_in a b = true -> str_in b c = true -> str_in a c = true.
Proof.
  rewrite !str_in_spec. intros (x & y & ->) (x' & y' & ->).
  exists (x' +:+ x), (y +:+ y'). by rewrite !string_app_assoc.
Qed.

Lemma str_in_app_l (a x y : string) :
  str_in a x = true -> str_in a (x +:+ y) = true.
Proof.
  rewrite !str_in_spec. intros (u & v & ->). exists u, (v +:+ y).
  by rewrite !string_app_assoc.
Qed.

Lemma str_in_app_r (a x y : string) :
  str_in a y = true -> str_in a (x +:+ y) = true.
Proof.
  rewrite !str_in_spec. intros (u & v & ->). exists (x +:+ u), v.
  by rewrite !string_app_assoc.
Qed.

Lemma str_in_refl (a : string) : str_in a a = true.
Proof. apply str_in_spec. exists "", "". by rewrite string_app_nil_r. Qed.

(** What [is_today] finds in a text it finds in every text around it. *)
Lemma string_checks_mono (s t : string) :
  str_in s t = true ->
  string_checks today s = true -> string_checks today t = true.
Proof.
  intros Hst. unfold string_checks.
  assert (Hin : forall a, str_in a s = true -> str_in a t = true)
    by (intros a Ha; by apply (str_in_trans a s t)).
  repeat match goal with
  | |- context [str_in ?a s] =>
      let E := fresh "E" in
      destruct (str_in a s) eqn:E;
        [rewrite (Hin a E)|]
  end; simpl; try done; intros _;
  repeat match goal with
  | |- context [str_in ?a t] => destruct (str_in a t)
  end; done.
Qed.

(** Each of the two full dates ends or begins with the year. *)
Lemma today_date_year : str_in (strftime today "%Y") (strftime today "%Y-%m-%d") = true.
Proof.
  change (strftime today "%Y-%m-%d")
    with (four_digits (year today) +:+
            String "-" (two_digits (month today) +:+
              String "-" (two_digits (day today) +:+ ""))).
  change (strftime today "%Y") with (four_digits (year today) +:+ "").
  rewrite string_app_nil_r. apply str_in_app_l, str_in_refl.
Qed.

Lemma today_text_date_year :
  str_in (strftime today "%Y") (strftime today "%B %d, %Y") = true.
Proof.
  change (strftime today "%B %d, %Y")
    with (month_name (month today) +:+
            String " " (two_digits (day today) +:+
              String "," (String " " (four_digits (year today) +:+ "")))).
  change (strftime today "%Y") with (four_digits (year today) +:+ "").
  apply str_in_app_r.
  change (String " " ?s) with (" " +:+ s). apply str_in_app_r, str_in_app_r.
  change (String "," (String " " ?s)) with (", " +:+ s).
  apply str_in_app_r, str_in_refl.
Qed.

Lemma string_checks_year (s : string) :
  string_checks today s = true -> str_in (strftime today "%Y") s = true.
Proof.
  unfold string_checks.
  destruct (str_in (strftime today "%Y-%m-%d") s) eqn:E1.
  { intros _. eapply str_in_trans; [apply today_date_year|done]. }
  destruct (str_in (strftime today "%B %d, %Y") s) eqn:E2.
  { intros _. eapply str_in_trans; [apply today_text_date_year|done]. }
  destruct (str_in (strftime today "%Y") s); [done|].
  cbn [orb]. by rewrite andb_false_r.
Qed.

Lemma is_today_text (s : string) :
  s ≠ "" -> lower s ∉ placeholders ->
  is_today today (PStr s) =
    match first_parsed (strip s) date_formats with
    | Some parsed_date =>
        if same_day today parsed_date then Ok true
        else Ok (string_checks today (strip s))
    | None => Ok (string_checks today (strip s))
    end.
Proof.
  intros Hs Hp. unfold is_today. destruct s as [|c s]; [done|].
  by rewrite bool_decide_eq_false_2.
Qed.

(** X16. A text is taken for today only when it holds the four digits of
    this year, or when [strptime] reads it, in the first format that fits,
    as today's year, month and day. *)
Theorem is_today_needs_year (s : string) :
  is_today today (PStr s) = Ok true ->
  str_in (strftime today "%Y") (strip s) = true \/
  exists parsed_date,
    first_parsed (strip s) date_formats = Some parsed_date /\
    year parsed_date = year today /\
    month parsed_date = month today /\
    day parsed_date = day today.
Proof.
  intros Hrun.
  destruct (string_checks today (strip s)) eqn:Hc;
    [left; by apply string_checks_year|right].
  unfold is_today in Hrun. destruct s as [|c s]; [done|].
  case_bool_decide; [done|]. rewrite Hc in Hrun.
  destruct (first_parsed _ _) as [d|]; [|by injection Hrun].
  destruct (same_day today d) eqn:Hd; [|by injection Hrun].
  exists d. split; [done|]. unfold same_day in Hd.
  apply andb_true_iff in Hd as [[Hy Hm]%andb_true_iff Hd].
  by repeat case_bool_decide.
Qed.

(** X17. A text that [is_today] takes for today by what it holds, not by
    parsing it, is taken for today inside every longer text that is not
    one of the placeholders. *)
Theorem is_today_inside_text (s t : string) :
  is_today today (PStr s) = Ok true ->
  first_parsed (strip s) date_formats = None ->
  str_in (strip s) (strip t) = true ->
  t ≠ "" -> lower t ∉ placeholders ->
  is_today today (PStr t) = Ok true.
Proof.
  intros Hs Hparse Hin Ht Hp.
  assert (Hc : string_checks today (strip s) = true).
  { unfold is_today in Hs. destruct s as [|c s]; [done|].
    case_bool_decide; [done|]. rewrite Hparse in Hs. by injection Hs. }
  rewrite is_today_text by done.
  rewrite (string_checks_mono _ _ Hin Hc).
  destruct (first_parsed (strip t) date_formats) as [d|]; [|done]. by destruct (same_day today d).
Qed.

(** X18. On a day whose month number and day number both occur among the four
    digits of the year, as on 2025-02-20, every text that holds the year
    is taken for today, whatever date it reads as. *)
Theorem is_today_year_suffices (s : string) :
  str_in (strftime today "%m") (strftime today "%Y") = true ->
  str_in (strftime today "%d") (strftime today "%Y") = true ->
  str_in (strftime today "%Y") (strip s) = true ->
  s ≠ "" -> lower s ∉ placeholders ->
  is_today today (PStr s) = Ok true.
Proof.
  intros Hm Hd Hy Hs Hp. rewrite is_today_text by done.
  assert (Hc : string_checks today (strip s) = true).
  { apply (string_checks_mono (strftime today "%Y")); [done|].
    unfold string_checks. rewrite Hm, Hd, str_in_refl.
    destruct (str_in (strftime today "%Y-%m-%d") (strftime today "%Y")
              || str_in (strftime today "%B %d, %Y") (strftime today "%Y"));
      [reflexivity|].
    destruct (str_in (strftime today "%B %d") (strftime today "%Y") && true);
      reflexivity. }
  rewrite Hc. destruct (first_parsed (strip s) date_formats) as [d|];
    [|reflexivity].
  destruct (same_day today d); reflexivity.
Qed.

End Today.

(** * The code run on concrete inputs *)

Section Concrete.
Import Run.

Lemma not_blank_Acme : ~ blank_text "Acme".
Proof. intros [Hc|Hc]; vm_compute in Hc; discriminate Hc. Qed.

Lemma save_blank_company_rejected_witness :
  save_to_csv (record "X" "   " "S" "D") acme_store = (Ok false, acme_store).
Proof.
  apply (save_blank_company_rejected (record "X" "   " "S" "D") acme_store "   ").
  - reflexivity.
  - right. reflexivity.
Defined.

(** C1 as stated fails: the store holds a record with title "X" and an empty
    company, the candidate has the same title and company, and the save
    returns [False]. *)
Lemma save_duplicate_blank_company_fails :
  ~ (forall (data : dict) (w : world) (k : string * string),
       identity data = Some k ->
       (exists app, app ∈ stored w /\ identity app = Some k) ->
       (save_to_csv data w).1 = Ok true /\
       length (store_rows (save_to_csv data w).2) = length (store_rows w)).
Proof.
  intros Hclaim.
  destruct (Hclaim (record "X" "" "S" "D")
              (world0 (Some [fieldnames; ["X"; ""; "Submitted"; "2024-01-01"; ""]]))
              ("x", "")) as [Hret _].
  - reflexivity.
  - eexists. split; [apply list_elem_of_here|]. reflexivity.
  - vm_compute in Hret. discriminate Hret.
Qed.

Lemma save_duplicate_noop_witness :
  save_to_csv (record "ENGINEER" "acme" "Viewed" "2024-02-02") acme_store
  = (Ok true, acme_store).
Proof.
  apply (save_duplicate_noop (record "ENGINEER" "acme" "Viewed" "2024-02-02")
           acme_store ("engineer", "acme") "acme").
  - reflexivity.
  - by eexists.
  - by eexists.
  - reflexivity.
  - intros [Hc|Hc]; vm_compute in Hc; discriminate Hc.
  - repeat constructor. by eexists.
  - eexists. split; [apply list_elem_of_here|]. reflexivity.
Defined.



(** The same save, evaluated. *)
Example save_exception_creates_file :
  save_to_csv with_location (world0 None)
    = (Ok false,
       set_csv (Some [])
         (_get_company_research (PStr "Initech") (world0 None)).2).
Proof. vm_compute. reflexivity. Qed.


(** The store of the example above afterwards: two rows for the key
    [("engineer", "acme")]. *)
Example duplicate_check_error_duplicates_row :
  store_rows (save_to_csv (record "Engineer" "Acme" "Viewed" "2024-02-02")
                short_row_store).2
  = [fieldnames; ["Engineer"];
     ["Engineer"; "Acme"; "Submitted"; "2024-01-01"; ""];
     ["Engineer"; "Acme"; "Viewed"; "2024-02-02"; "Acme builds software."]].
Proof. vm_compute. reflexivity. Qed.

(** A save into a store file whose last line has no line break: the line
    of the record continues that line, and the store lists one record
    of nine cells. *)
Example save_continues_open_line :
  save_to_csv (record "Tester" "Initech" "Submitted" "2024-01-04") open_line_store
  = (Ok true,
     set_csv
       (Some [fieldnames;
              ["Engineer"; "Acme"; "Submitted"; "2024-01-01"; "xTester";
               "Initech"; "Submitted"; "2024-01-04"; "Initech builds software."]])
       (_get_company_research (PStr "Initech") open_line_store).2).
Proof. vm_compute. reflexivity. Qed.

(** The same save once more: no stored record has the key of the
    candidate, and its row is written again. *)
Example save_twice_on_open_line :
  store_rows
    (save_to_csv (record "Tester" "Initech" "Submitted" "2024-01-04")
       (save_to_csv (record "Tester" "Initech" "Submitted" "2024-01-04")
          open_line_store).2).2
  = [fieldnames;
     ["Engineer"; "Acme"; "Submitted"; "2024-01-01"; "xTester";
      "Initech"; "Submitted"; "2024-01-04"; "Initech builds software."];
     ["Tester"; "Initech"; "Submitted"; "2024-01-04"; "Initech builds software."]].
Proof. vm_compute. reflexivity. Qed.

End Concrete.

Section ConcreteFailures.
Import Run.

(** C6 as stated fails: the read fails and [remove_duplicates] returns
    [True]. *)
Lemma unreadable_store_dedup_not_failure :
  ~ (forall (w : world) (e : exn) (w1 : world),
       open_csv_r w = (Raise e, w1) ->
       (remove_duplicates w).1 = Ok false /\ csv (remove_duplicates w).2 = csv w).
Proof.
  intros Hclaim.
  destruct (Hclaim locked_store OSError locked_store) as [Hret _].
  - reflexivity.
  - vm_compute in Hret. discriminate Hret.
Qed.

Lemma unreadable_store_dedup_succeeds_witness :
  remove_duplicates locked_store = (Ok true, locked_store).
Proof.
  apply (unreadable_store_dedup_succeeds locked_store OSError locked_store).
  reflexivity.
Defined.

(** C9 as stated fails: the constructor has no [try] block, and when the
    store file is absent and cannot be created [OSError] leaves
    [JobApplicationTracker()]. *)
Lemma constructor_raises :
  JobApplicationTracker no_store = (Raise OSError, no_store).
Proof. reflexivity. Qed.



End ConcreteFailures.

Section ConcreteBatch.
Import Run.


(** The same run, evaluated: one note is written, after a call that gave
    no text. *)
Example research_generated_for_all_run :
  (generate_research_for_all_companies four_rows).1 = Ok 1 /\
  gen_log (generate_research_for_all_companies four_rows).2 = ["Unknown"; "Initech"] /\
  research (generate_research_for_all_companies four_rows).2 !! "Initech.txt"
    = Some (note_text "Initech" "2024-03-01 09:00:00" "Initech builds software.").
Proof. vm_compute. done. Qed.



End ConcreteBatch.

Section ConcreteDedup.
Import Run.


(** The same run, evaluated: the file is left with the header alone. *)
Example overlong_row_run :
  (remove_duplicates overlong_row).1 = Ok false /\
  store_rows (remove_duplicates overlong_row).2 = [fieldnames].
Proof. vm_compute. done. Qed.


(** The same run, evaluated: the second row is kept. *)
Example dedup_keeps_last_run :
  store_rows (remove_duplicates two_statuses).2 = [fieldnames; second_row].
Proof. vm_compute. reflexivity. Qed.

Lemma dedup_idempotent_witness :
  (csv (remove_duplicates (remove_duplicates legacy_store).2).2
     = csv (remove_duplicates legacy_store).2 /\
   csv_tail (remove_duplicates (remove_duplicates legacy_store).2).2
     = csv_tail (remove_duplicates legacy_store).2) /\
  ((remove_duplicates legacy_store).1 = Ok true ->
   (remove_duplicates (remove_duplicates legacy_store).2).1 = Ok true /\
   exists u,
     collect_unique (stored (remove_duplicates legacy_store).2) [] [] = Ok (u, []) /\
     length u = length (stored (remove_duplicates legacy_store).2)).
Proof.
  apply (dedup_idempotent legacy_store).
  - vm_compute. reflexivity.
  - vm_compute. reflexivity.
Defined.

Example dedup_idempotent_run :
  (remove_duplicates legacy_store).1 = Ok true /\
  store_rows (remove_duplicates legacy_store).2
    = [fieldnames; ["a"; "CO"; "Interview"; "2024-02-01"; "CO builds software."]] /\
  store_rows (remove_duplicates (remove_duplicates legacy_store).2).2
    = [fieldnames; ["a"; "CO"; "Interview"; "2024-02-01"; "CO builds software."]].
Proof. vm_compute. done. Qed.

End ConcreteDedup.

(** * More runs on concrete inputs *)

Section ConcreteSave.
Import Run RunMore.

Lemma not_blank_Initech : ~ blank_text "Initech".
Proof. intros [Hc|Hc]; vm_compute in Hc; discriminate Hc. Qed.


Lemma save_missing_field_rejected_witness :
  save_to_csv without_status acme_store = (Ok false, acme_store).
Proof.
  apply (save_missing_field_rejected without_status acme_store "status").
  - apply (bool_decide_unpack _). vm_compute. exact I.
  - reflexivity.
Defined.

Lemma is_duplicate_exact_witness :
  _is_duplicate (record "ENGINEER" "acme" "Viewed" "2024-02-02") acme_store
    = (Ok (bool_decide (Some ("engineer", "acme") ∈ identity <$> stored acme_store)),
       acme_store) /\
  _is_duplicate tester acme_store
    = (Ok (bool_decide (Some ("tester", "initech") ∈ identity <$> stored acme_store)),
       acme_store).
Proof.
  split.
  - apply (is_duplicate_exact _ acme_store ("engineer", "acme")).
    + reflexivity.
    + repeat constructor. by eexists.
  - apply (is_duplicate_exact tester acme_store ("tester", "initech")).
    + reflexivity.
    + repeat constructor. by eexists.
Defined.




(** The same save, evaluated. *)
Example save_new_record_run :
  store_rows (save_to_csv tester acme_store).2
  = [fieldnames; ["Engineer"; "Acme"; "Submitted"; "2024-01-01"; ""];
     ["Tester"; "Initech"; "Submitted"; "2024-01-04"; "Initech builds software."]].
Proof. vm_compute. reflexivity. Qed.

End ConcreteSave.

Section ConcreteResearch.
Import Run RunMore.

Lemma constructor_creates_header_once_witness :
  (is_Some (csv (world0 None)) -> world0 (Some [fieldnames]) = world0 None) /\
  (csv (world0 None) = None ->
   csv (world0 (Some [fieldnames])) = Some [fieldnames] /\
   stored (world0 (Some [fieldnames])) = []) /\
  JobApplicationTracker (world0 (Some [fieldnames]))
    = (Ok tt, world0 (Some [fieldnames])).
Proof.
  apply (constructor_creates_header_once (world0 None) (world0 (Some [fieldnames]))).
  reflexivity.
Defined.

Lemma research_generated_and_written_witness :
  exists w1,
    _get_company_research (PStr "Initech") acme_store
      = (Ok "Initech builds software.", w1) /\
    research w1 = <[research_file "Initech" :=
                      note_text "Initech" (now acme_store) "Initech builds software."]>
                    (research acme_store) /\
    gen_log w1 = gen_log acme_store ++ ["Initech"] /\
    lookups w1 = lookups acme_store ++ [research_file "Initech"].
Proof.
  apply (research_generated_and_written "Initech" acme_store "Initech builds software.").
  - exact not_blank_Initech.
  - reflexivity.
  - vm_compute. reflexivity.
  - apply not_elem_of_empty.
Defined.

Lemma failed_generation_not_cached_witness :
  exists w1,
    _get_company_research (PStr "Unknown") acme_store = (Ok "", w1) /\
    research w1 = research acme_store /\
    gen_log w1 = gen_log acme_store ++ ["Unknown"].
Proof.
  apply (failed_generation_not_cached "Unknown" acme_store).
  - intros [Hc|Hc]; vm_compute in Hc; discriminate Hc.
  - reflexivity.
  - vm_compute. reflexivity.
Defined.

Lemma unreadable_note_gives_nothing_witness :
  _get_company_research (PStr "Acme") locked_note
    = (Ok "", set_lookups (lookups locked_note ++ [research_file "Acme"]) locked_note).
Proof.
  apply (unreadable_note_gives_nothing "Acme" locked_note).
  - intros [Hc|Hc]; vm_compute in Hc; discriminate Hc.
  - by eexists.
  - apply (bool_decide_unpack _). vm_compute. exact I.
Defined.

Lemma generated_research_is_cached_witness :
  exists w1 w2,
    _get_company_research (PStr "Initech") acme_store
      = (Ok "Initech builds software.", w1) /\
    _get_company_research (PStr "Initech") w1
      = (Ok (strip (String.concat "" (readlines "Initech builds software."))), w2) /\
    gen_log w2 = gen_log acme_store ++ ["Initech"] /\
    research w2 = research w1 /\
    (free_of [CR] "Initech builds software." ->
     String.concat "" (readlines "Initech builds software.")
       = "Initech builds software.").
Proof.
  apply (generated_research_is_cached "Initech" acme_store "Initech builds software.").
  - exact not_blank_Initech.
  - reflexivity.
  - vm_compute. reflexivity.
  - apply not_elem_of_empty.
  - apply not_elem_of_empty.
  - repeat (split; [by apply (bool_decide_unpack _)|]). exact I.
  - repeat (split; [by apply (bool_decide_unpack _)|]). exact I.
Defined.

(** The same two calls, evaluated: the second gives the text of the first
    and the language model is called once. *)
Example generated_research_is_cached_run :
  (_get_company_research (PStr "Initech")
     (_get_company_research (PStr "Initech") acme_store).2).1
    = Ok "Initech builds software." /\
  gen_log (_get_company_research (PStr "Initech")
     (_get_company_research (PStr "Initech") acme_store).2).2 = ["Initech"].
Proof. vm_compute. done. Qed.

End ConcreteResearch.

Section ConcreteDedupMore.
Import Run RunMore.

Lemma legacy_store_well_formed : Forall well_formed (stored legacy_store).
Proof.
  apply (layout_well_formed legacy_store ["title"; "company"; "status"; "date"]
           [["A"; "Co"; "Submitted"; "2024-01-01"];
            ["B"; "  "; "Submitted"; "2024-01-02"];
            ["C"];
            ["a"; "CO"; "Interview"; "2024-02-01"]]).
  - reflexivity.
  - by right.
  - repeat constructor.
Qed.

Lemma reordered_well_formed : Forall well_formed (stored reordered).
Proof.
  apply (layout_well_formed reordered fieldnames
           [["A"; "Co"; "Submitted"; "2024-01-01"; "r1"];
            ["B"; "Other"; "Submitted"; "2024-01-02"; "r2"];
            ["a"; "CO"; "Interview"; "2024-02-01"; "r3"]]).
  - reflexivity.
  - by left.
  - repeat constructor.
Qed.

Lemma dedup_rows_from_valid_records_witness :
  exists w' rows,
    remove_duplicates legacy_store = (Ok true, w') /\
    csv w' = Some (fieldnames :: rows) /\
    Forall (fun row => exists a, a ∈ stored legacy_store /\ valid a /\ written a row)
      rows /\
    length rows <= length (stored legacy_store).
Proof.
  apply (dedup_rows_from_valid_records legacy_store).
  - reflexivity.
  - exact legacy_store_well_formed.
  - intros Hnil. apply (f_equal length) in Hnil. vm_compute in Hnil.
    discriminate Hnil.
Defined.

Lemma dedup_keeps_first_seen_order_witness :
  exists w' rows,
    remove_duplicates reordered = (Ok true, w') /\
    csv w' = Some (fieldnames :: rows) /\
    row_identity <$> rows = Some <$> first_seen (omap valid_key (stored reordered)).
Proof.
  apply (dedup_keeps_first_seen_order reordered).
  - reflexivity.
  - exact reordered_well_formed.
  - intros Hnil. apply (f_equal length) in Hnil. vm_compute in Hnil.
    discriminate Hnil.
Defined.

(** The same run, evaluated: the key of the first row keeps its place and
    carries the third row. *)
Example dedup_keeps_first_seen_order_run :
  store_rows (remove_duplicates reordered).2
  = [fieldnames; ["a"; "CO"; "Interview"; "2024-02-01"; "r3"];
     ["B"; "Other"; "Submitted"; "2024-01-02"; "r2"]].
Proof. vm_compute. reflexivity. Qed.

Lemma extra_key_empties_store_witness :
  exists w',
    remove_duplicates six_columns = (Ok false, w') /\ csv w' = Some [fieldnames].
Proof.
  apply (extra_key_empties_store six_columns).
  - reflexivity.
  - repeat constructor; try (by eexists); right; by eexists.
  - repeat constructor; apply (bool_decide_unpack _); vm_compute; exact I.
  - apply Exists_cons_hd. exists "Acme". split; [reflexivity|exact not_blank_Acme].
Defined.

Lemma dedup_fixed_point_witness :
  exists w',
    remove_duplicates two_companies = (Ok true, w') /\ csv w' = csv two_companies /\
    (csv_tail two_companies = "" -> csv_tail w' = csv_tail two_companies).
Proof.
  apply (dedup_fixed_point two_companies two_companies_rows).
  - repeat split. by repeat constructor.
  - repeat constructor.
    + exists "Acme". split; [reflexivity|exact not_blank_Acme].
    + exists "Initech". split; [reflexivity|].
      intros [Hc|Hc]; vm_compute in Hc; discriminate Hc.
  - apply (bool_decide_unpack _). vm_compute. exact I.
Defined.

End ConcreteDedupMore.

Section ConcreteToday.
Import Run RunMore.

Lemma is_today_needs_year_witness :
  str_in (strftime april_15 "%Y") (strip "15 April 2025") = true \/
  exists parsed_date,
    first_parsed (strip "15 April 2025") date_formats = Some parsed_date /\
    year parsed_date = year april_15 /\
    month parsed_date = month april_15 /\
    day parsed_date = day april_15.
Proof.
  apply (is_today_needs_year april_15 "15 April 2025").
  vm_compute. reflexivity.
Defined.

Lemma is_today_inside_text_witness :
  is_today april_15 (PStr "Applied 2025-04-15 10:30 via LinkedIn") = Ok true.
Proof.
  apply (is_today_inside_text april_15 "2025-04-15 10:30").
  - vm_compute. reflexivity.
  - vm_compute. reflexivity.
  - vm_compute. reflexivity.
  - discriminate.
  - apply (bool_decide_unpack _). vm_compute. exact I.
Defined.

(** On 2025-02-20 the seventh of November is taken for today. *)
Lemma is_today_year_suffices_witness :
  is_today february_20 (PStr "2025-11-07") = Ok true.
Proof.
  apply (is_today_year_suffices february_20 "2025-11-07").
  - vm_compute. reflexivity.
  - vm_compute. reflexivity.
  - vm_compute. reflexivity.
  - discriminate.
  - apply (bool_decide_unpack _). vm_compute. exact I.
Defined.

End ConcreteToday.
